(** * Secrets Manager metadata data sources: field mapping into Terraform state

    A shallow embedding of the two read-only data sources

    - [data_source_ibm_sm_private_certificate_metadata.go]
    - the username/password secret metadata data source

    of the IBM Cloud Terraform provider.  Go's [map[string]interface{}] is a
    [gmap string _]; a nilable pointer field [*T] is an [option T]; a Go
    interface value is an inductive type with one constructor per dynamic
    type the code distinguishes, and one more for every other dynamic type. *)

From Stdlib Require Import ZArith NArith Ascii String DecimalString List.
From stdpp Require Import base option gmap strings list fin_maps.

Local Open Scope string_scope.
Local Open Scope Z_scope.

(** ** Go values *)

(** A Go [error], identified with the text of its [Error()] method;
    [fmt.Errorf] with [%s] verbs is string concatenation. *)
Abbreviation error := string (only parsing).

(** The dynamic values stored in a [map[string]interface{}] built by the
    mappers: [bool], [int64] and [string]. *)
Inductive scalar : Type :=
| SBool (b : bool)
| SInt (n : Z)
| SString (s : string).

(** ** The rotation-policy structs of [secretsmanagerv2] *)

Module CommonRotationPolicy.
Record t : Type := Build {
  AutoRotate : option bool;
  Interval : option Z;
  Unit : option string
}.
End CommonRotationPolicy.

Module PublicCertificateRotationPolicy.
Record t : Type := Build {
  AutoRotate : option bool;
  Interval : option Z;
  Unit : option string;
  RotateKeys : option bool
}.
End PublicCertificateRotationPolicy.

Module RotationPolicy.
Record t : Type := Build {
  AutoRotate : option bool;
  Interval : option Z;
  Unit : option string;
  RotateKeys : option bool
}.
End RotationPolicy.

(** [secretsmanagerv2.RotationPolicyIntf]: the dynamic type of a non-nil
    interface value.  The mappers test for three pointer types in turn; any
    other implementation of the interface is [OtherRotationPolicy], tagged
    with the name of its dynamic type. *)
Inductive RotationPolicyIntf : Type :=
| CommonRotationPolicyPtr (model : CommonRotationPolicy.t)
| PublicCertificateRotationPolicyPtr (model : PublicCertificateRotationPolicy.t)
| RotationPolicyPtr (model : RotationPolicy.t)
| OtherRotationPolicy (dynamic_type : string).

(** [if field != nil { modelMap[key] = *field }] *)
Definition assign_if_non_nil {A : Type} (key : string) (box : A → scalar)
    (field : option A) (modelMap : gmap string scalar) : gmap string scalar :=
  match field with
  | Some v => <[key := box v]> modelMap
  | None => modelMap
  end.

(** The result of a Go function of type [(map[string]interface{}, error)]:
    [None] in the first component is the nil map, [None] in the second
    the nil error. *)
Abbreviation map_result := (option (gmap string scalar) * option string)%type
  (only parsing).

Definition Unrecognized_subtype : string :=
  "Unrecognized secretsmanagerv2.RotationPolicyIntf subtype encountered".

(** ** Private certificate metadata: the rotation-policy mappers *)

Definition dataSourceIbmSmPrivateCertificateMetadataCommonRotationPolicyToMap
    (model : CommonRotationPolicy.t) : map_result :=
  let modelMap : gmap string scalar := ∅ in
  let modelMap := assign_if_non_nil "auto_rotate" SBool
                    (CommonRotationPolicy.AutoRotate model) modelMap in
  let modelMap := assign_if_non_nil "interval" SInt
                    (CommonRotationPolicy.Interval model) modelMap in
  let modelMap := assign_if_non_nil "unit" SString
                    (CommonRotationPolicy.Unit model) modelMap in
  (Some modelMap, None).

Definition dataSourceIbmSmPrivateCertificateMetadataPublicCertificateRotationPolicyToMap
    (model : PublicCertificateRotationPolicy.t) : map_result :=
  let modelMap : gmap string scalar := ∅ in
  let modelMap := assign_if_non_nil "auto_rotate" SBool
                    (PublicCertificateRotationPolicy.AutoRotate model) modelMap in
  let modelMap := assign_if_non_nil "interval" SInt
                    (PublicCertificateRotationPolicy.Interval model) modelMap in
  let modelMap := assign_if_non_nil "unit" SString
                    (PublicCertificateRotationPolicy.Unit model) modelMap in
  let modelMap := assign_if_non_nil "rotate_keys" SBool
                    (PublicCertificateRotationPolicy.RotateKeys model) modelMap in
  (Some modelMap, None).

Definition dataSourceIbmSmPrivateCertificateMetadataRotationPolicyToMap
    (model : RotationPolicyIntf) : map_result :=
  match model with
  | CommonRotationPolicyPtr model =>
      dataSourceIbmSmPrivateCertificateMetadataCommonRotationPolicyToMap model
  | PublicCertificateRotationPolicyPtr model =>
      dataSourceIbmSmPrivateCertificateMetadataPublicCertificateRotationPolicyToMap model
  | RotationPolicyPtr model =>
      let modelMap : gmap string scalar := ∅ in
      let modelMap := assign_if_non_nil "auto_rotate" SBool
                        (RotationPolicy.AutoRotate model) modelMap in
      let modelMap := assign_if_non_nil "interval" SInt
                        (RotationPolicy.Interval model) modelMap in
      let modelMap := assign_if_non_nil "unit" SString
                        (RotationPolicy.Unit model) modelMap in
      let modelMap := assign_if_non_nil "rotate_keys" SBool
                        (RotationPolicy.RotateKeys model) modelMap in
      (Some modelMap, None)
  | OtherRotationPolicy _ => (None, Some Unrecognized_subtype)
  end.

(** ** Username/password secret metadata: the rotation-policy mappers *)

Definition dataSourceIbmSmUsernamePasswordSecretMetadataCommonRotationPolicyToMap
    (model : CommonRotationPolicy.t) : map_result :=
  let modelMap : gmap string scalar := ∅ in
  let modelMap := assign_if_non_nil "auto_rotate" SBool
                    (CommonRotationPolicy.AutoRotate model) modelMap in
  let modelMap := assign_if_non_nil "interval" SInt
                    (CommonRotationPolicy.Interval model) modelMap in
  let modelMap := assign_if_non_nil "unit" SString
                    (CommonRotationPolicy.Unit model) modelMap in
  (Some modelMap, None).

Definition dataSourceIbmSmUsernamePasswordSecretMetadataPublicCertificateRotationPolicyToMap
    (model : PublicCertificateRotationPolicy.t) : map_result :=
  let modelMap : gmap string scalar := ∅ in
  let modelMap := assign_if_non_nil "auto_rotate" SBool
                    (PublicCertificateRotationPolicy.AutoRotate model) modelMap in
  let modelMap := assign_if_non_nil "interval" SInt
                    (PublicCertificateRotationPolicy.Interval model) modelMap in
  let modelMap := assign_if_non_nil "unit" SString
                    (PublicCertificateRotationPolicy.Unit model) modelMap in
  let modelMap := assign_if_non_nil "rotate_keys" SBool
                    (PublicCertificateRotationPolicy.RotateKeys model) modelMap in
  (Some modelMap, None).

Definition dataSourceIbmSmUsernamePasswordSecretMetadataRotationPolicyToMap
    (model : RotationPolicyIntf) : map_result :=
  match model with
  | CommonRotationPolicyPtr model =>
      dataSourceIbmSmUsernamePasswordSecretMetadataCommonRotationPolicyToMap model
  | PublicCertificateRotationPolicyPtr model =>
      dataSourceIbmSmUsernamePasswordSecretMetadataPublicCertificateRotationPolicyToMap model
  | RotationPolicyPtr model =>
      let modelMap : gmap string scalar := ∅ in
      let modelMap := assign_if_non_nil "auto_rotate" SBool
                        (RotationPolicy.AutoRotate model) modelMap in
      let modelMap := assign_if_non_nil "interval" SInt
                        (RotationPolicy.Interval model) modelMap in
      let modelMap := assign_if_non_nil "unit" SString
                        (RotationPolicy.Unit model) modelMap in
      let modelMap := assign_if_non_nil "rotate_keys" SBool
                        (RotationPolicy.RotateKeys model) modelMap in
      (Some modelMap, None)
  | OtherRotationPolicy _ => (None, Some Unrecognized_subtype)
  end.

(** ** The Terraform plugin SDK: schemas

    [helper/schema] is an external collaborator.  What the data sources
    consume of it is modelled here: schema declarations, and a
    [ResourceData] whose [Set] checks the written value against the declared
    schema. *)

Module schema.

Inductive ValueType : Type :=
| TypeBool | TypeInt | TypeString | TypeList | TypeMap.

(** [schema.Schema], and what its [Elem] may hold: nothing, a [*Schema]
    (element type of a list or map of primitives) or a [*Resource]
    (a nested record, given by its own [Schema] map). *)
Inductive Schema : Type :=
  Build_Schema (Type_ : ValueType) (Optional Required Computed : bool)
               (Description : string) (Elem : ElemT) (MaxItems MinItems : Z)
with ElemT : Type :=
| ElemNil
| ElemSchema (s : Schema)
| ElemResource (fields : list (string * Schema)).

Definition Type_ (s : Schema) := let 'Build_Schema t _ _ _ _ _ _ _ := s in t.
Definition Optional (s : Schema) := let 'Build_Schema _ b _ _ _ _ _ _ := s in b.
Definition Required (s : Schema) := let 'Build_Schema _ _ b _ _ _ _ _ := s in b.
Definition Computed (s : Schema) := let 'Build_Schema _ _ _ b _ _ _ _ := s in b.
Definition Description (s : Schema) := let 'Build_Schema _ _ _ _ d _ _ _ := s in d.
Definition Elem (s : Schema) := let 'Build_Schema _ _ _ _ _ e _ _ := s in e.
Definition MaxItems (s : Schema) := let 'Build_Schema _ _ _ _ _ _ n _ := s in n.
Definition MinItems (s : Schema) := let 'Build_Schema _ _ _ _ _ _ _ n := s in n.

(** A Go composite literal [&schema.Schema{F1: v1, ...}] names the fields
    it sets; every field it does not name keeps its zero value. *)
Inductive Init : Type :=
| Type_is (t : ValueType)
| Required_is (b : bool)
| Computed_is (b : bool)
| Description_is (d : string)
| Elem_is (e : ElemT).

(** The zero [Schema].  The SDK's [ValueType] enumeration starts at
    [TypeInvalid]; every literal of the data sources names [Type], so the
    zero value of that field is never observed and stands as [TypeBool]
    here. *)
Definition zero : Schema :=
  Build_Schema TypeBool false false false "" ElemNil 0 0.

Definition init (s : Schema) (f : Init) : Schema :=
  let 'Build_Schema t o r c d e mx mn := s in
  match f with
  | Type_is t' => Build_Schema t' o r c d e mx mn
  | Required_is r' => Build_Schema t o r' c d e mx mn
  | Computed_is c' => Build_Schema t o r c' d e mx mn
  | Description_is d' => Build_Schema t o r c d' e mx mn
  | Elem_is e' => Build_Schema t o r c d e' mx mn
  end.

Definition lit (fields : list Init) : Schema := fold_left init fields zero.

(** [schema.Resource]: its [Schema] map, in the order of the literal.
    [ReadContext] is the read function defined further down. *)
Record Resource : Type := Build_Resource {
  Resource_Schema : list (string * Schema)
}.

End schema.

Import schema.

(** ** The Terraform plugin SDK: resource data *)

(** The [interface{}] argument of [d.Set]. *)
Inductive value : Type :=
| Nil
| Ptr (p : option scalar)
| Scalar (x : scalar)
| MapOfString (m : gmap string string)
| ListOfString (l : list string)
| ListOfMaps (l : list (gmap string scalar)).

(** What an attribute of the state holds. *)
Inductive attr : Type :=
| AScalar (x : scalar)
| AMap (m : gmap string string)
| AListOfString (l : list string)
| AList (l : list (gmap string scalar)).

(** [ResourceData.Set] first replaces a pointer by what it points to, and a
    nil pointer by nil ([None]). *)
Definition indirect (v : value) : option attr :=
  match v with
  | Nil => None
  | Ptr p => AScalar <$> p
  | Scalar x => Some (AScalar x)
  | MapOfString m => Some (AMap m)
  | ListOfString l => Some (AListOfString l)
  | ListOfMaps l => Some (AList l)
  end.

Definition scalar_of_type (t : ValueType) (x : scalar) : bool :=
  match t, x with
  | TypeBool, SBool _ | TypeInt, SInt _ | TypeString, SString _ => true
  | _, _ => false
  end.

(** Lookup in a schema map given in literal order. *)
Definition schema_of (fields : list (string * Schema)) (key : string)
    : option Schema :=
  (list_to_map fields : gmap string Schema) !! key.

(** One nested record: every key it holds must be declared by the nested
    resource, with a value of the declared primitive type. *)
Definition object_conforms (fields : list (string * Schema))
    (obj : gmap string scalar) : bool :=
  forallb (λ kv, match schema_of fields kv.1 with
                 | Some s => scalar_of_type (Type_ s) kv.2
                 | None => false
                 end) (map_to_list obj).

(** The values the field writer accepts for an attribute of schema [s]. *)
Definition conforms (s : Schema) (a : attr) : bool :=
  match Type_ s, a with
  | (TypeBool | TypeInt | TypeString) as t, AScalar x => scalar_of_type t x
  | TypeMap, AMap _ =>
      match Elem s with
      | ElemSchema e => match Type_ e with TypeString => true | _ => false end
      | _ => false
      end
  | TypeList, AListOfString _ =>
      match Elem s with
      | ElemSchema e => match Type_ e with TypeString => true | _ => false end
      | _ => false
      end
  | TypeList, AList l =>
      match Elem s with
      | ElemResource fields => forallb (object_conforms fields) l
      | _ => false
      end
  | _, _ => false
  end.

(** The zero value [d.Get] returns for a declared attribute that holds
    nothing. *)
Definition zero_value (s : Schema) : attr :=
  match Type_ s with
  | TypeBool => AScalar (SBool false)
  | TypeInt => AScalar (SInt 0)
  | TypeString => AScalar (SString "")
  | TypeMap => AMap ∅
  | TypeList =>
      match Elem s with
      | ElemResource _ => AList []
      | _ => AListOfString []
      end
  end.

(** The zero value of a primitive type. *)
Definition zero_scalar (t : ValueType) : option scalar :=
  match t with
  | TypeBool => Some (SBool false)
  | TypeInt => Some (SInt 0)
  | TypeString => Some (SString "")
  | TypeList | TypeMap => None
  end.

(** The nested record whose declared primitive fields all hold their zero
    value. *)
Definition zero_record (fields : list (string * Schema))
    : gmap string scalar :=
  list_to_map (omap (λ f, pair f.1 <$> zero_scalar (Type_ f.2)) fields).

(** What the state holds, and [d.Get] returns, once [a] is written to an
    attribute of schema [s].  The field writer records a nil value as the
    empty entry, which reads back as the zero value of the declared type; a
    nested record is read back field by field of the nested resource, so a
    declared field the written record lacks shows its zero value. *)
Definition stored (s : Schema) (a : option attr) : attr :=
  match a with
  | None => zero_value s
  | Some (AList l) =>
      match Elem s with
      | ElemResource fields => AList ((λ obj, obj ∪ zero_record fields) <$> l)
      | _ => AList l
      end
  | Some a => a
  end.

(** [schema.ResourceData]: the schema it was created for, the resource ID
    and the attributes of the state (what the configuration supplied and
    what was written since, as [d.Get] and the resulting state show
    them). *)
Record ResourceData : Type := Build_ResourceData {
  rd_schema : list (string * Schema);
  rd_Id : string;
  rd_attrs : gmap string attr
}.

(** Write [a] to the declared attribute [key]: the attribute then holds
    [stored s a], the zero value of its type when [a] is nil. *)
Definition store (key : string) (a : option attr) (d : ResourceData)
    : ResourceData :=
  Build_ResourceData (rd_schema d) (rd_Id d)
    match schema_of (rd_schema d) key with
    | Some s => <[key := stored s a]> (rd_attrs d)
    | None => rd_attrs d
    end.

(** [d.Get(key)]: nil for an undeclared key; otherwise a value of the
    declared type, the zero value when the attribute holds nothing of that
    type. *)
Definition ResourceData_Get (key : string) (d : ResourceData) : option attr :=
  match schema_of (rd_schema d) key with
  | None => None
  | Some s =>
      Some match rd_attrs d !! key with
           | Some a => if conforms s a then stored s (Some a) else zero_value s
           | None => zero_value s
           end
  end.

(** [d.SetId(v)] sets the resource ID and writes it to the attribute [id]
    as well, without consulting the schema. *)
Definition ResourceData_SetId (v : string) (d : ResourceData) : ResourceData :=
  Build_ResourceData (rd_schema d) v
    (<["id" := AScalar (SString v)]> (rd_attrs d)).

(** [d.Set(key, v)]: an error, and no change, when [key] is not declared or
    the value is not of the declared type; a nil value is accepted for
    every declared attribute. *)
Definition ResourceData_Set (key : string) (v : value) (d : ResourceData)
    : option string * ResourceData :=
  match schema_of (rd_schema d) key with
  | None => (Some ("Invalid address to set: " +:+ key), d)
  | Some s =>
      match indirect v with
      | None => (None, store key None d)
      | Some a =>
          if conforms s a then (None, store key (Some a) d)
          else (Some (key +:+ ": value does not match the schema type"), d)
      end
  end.

(** ** The declared schemas *)

Definition DataSourceIbmSmPrivateCertificateMetadata : Resource :=
  Build_Resource [
    ("id",
      lit [Type_is TypeString;
        Required_is true;
        Description_is
          "The ID of the secret."]);
    ("created_by",
      lit [Type_is TypeString;
        Computed_is true;
        Description_is
          "The unique identifier that is associated with the entity that created the secret."]);
    ("created_at",
      lit [Type_is TypeString;
        Computed_is true;
        Description_is
          "The date when a resource was created. The date format follows RFC 3339."]);
    ("crn",
      lit [Type_is TypeString;
        Computed_is true;
        Description_is
          "A CRN that uniquely identifies an IBM Cloud resource."]);
    ("custom_metadata",
      lit [Type_is TypeMap;
        Computed_is true;
        Description_is
          "The secret metadata that a user can customize.";
        Elem_is (ElemSchema (lit [Type_is TypeString]))]);
    ("description",
      lit [Type_is TypeString;
        Computed_is true;
        Description_is
          "An extended description of your secret.To protect your privacy, do not use personal data, such as your name or location, as a description for your secret group."]);
    ("downloaded",
      lit [Type_is TypeBool;
        Computed_is true;
        Description_is
          "Indicates whether the secret data that is associated with a secret version was retrieved in a call to the service API."]);
    ("labels",
      lit [Type_is TypeList;
        Computed_is true;
        Description_is
          "Labels that you can use to search for secrets in your instance.Up to 30 labels can be created.";
        Elem_is (ElemSchema (lit [Type_is TypeString]))]);
    ("locks_total",
      lit [Type_is TypeInt;
        Computed_is true;
        Description_is
          "The number of locks of the secret."]);
    ("name",
      lit [Type_is TypeString;
        Computed_is true;
        Description_is
          "The human-readable name of your secret."]);
    ("secret_group_id",
      lit [Type_is TypeString;
        Computed_is true;
        Description_is
          "A v4 UUID identifier, or `default` secret group."]);
    ("secret_type",
      lit [Type_is TypeString;
        Computed_is true;
        Description_is
          "The secret type. Supported types are arbitrary, certificates (imported, public, and private), IAM credentials, key-value, and user credentials."]);
    ("state",
      lit [Type_is TypeInt;
        Computed_is true;
        Description_is
          "The secret state that is based on NIST SP 800-57. States are integers and correspond to the `Pre-activation = 0`, `Active = 1`,  `Suspended = 2`, `Deactivated = 3`, and `Destroyed = 5` values."]);
    ("state_description",
      lit [Type_is TypeString;
        Computed_is true;
        Description_is
          "A text representation of the secret state."]);
    ("updated_at",
      lit [Type_is TypeString;
        Computed_is true;
        Description_is
          "The date when a resource was recently modified. The date format follows RFC 3339."]);
    ("versions_total",
      lit [Type_is TypeInt;
        Computed_is true;
        Description_is
          "The number of versions of the secret."]);
    ("signing_algorithm",
      lit [Type_is TypeString;
        Computed_is true;
        Description_is
          "The identifier for the cryptographic algorithm that was used by the issuing certificate authority to sign a certificate."]);
    ("alt_names",
      lit [Type_is TypeList;
        Computed_is true;
        Description_is
          "With the Subject Alternative Name field, you can specify additional host names to be protected by a single SSL certificate.";
        Elem_is (ElemSchema (lit [Type_is TypeString]))]);
    ("certificate_authority",
      lit [Type_is TypeString;
        Computed_is true;
        Description_is
          "The intermediate certificate authority that signed this certificate."]);
    ("certificate_template",
      lit [Type_is TypeString;
        Computed_is true;
        Description_is
          "The name of the certificate template."]);
    ("common_name",
      lit [Type_is TypeString;
        Computed_is true;
        Description_is
          "The Common Name (AKA CN) represents the server name that is protected by the SSL certificate."]);
    ("expiration_date",
      lit [Type_is TypeString;
        Computed_is true;
        Description_is
          "The date a secret is expired. The date format follows RFC 3339."]);
    ("issuer",
      lit [Type_is TypeString;
        Computed_is true;
        Description_is
          "The distinguished name that identifies the entity that signed and issued the certificate."]);
    ("key_algorithm",
      lit [Type_is TypeString;
        Computed_is true;
        Description_is
          "The identifier for the cryptographic algorithm used to generate the public key that is associated with the certificate."]);
    ("next_rotation_date",
      lit [Type_is TypeString;
        Computed_is true;
        Description_is
          "The date that the secret is scheduled for automatic rotation.The service automatically creates a new version of the secret on its next rotation date. This field exists only for secrets that have an existing rotation policy."]);
    ("rotation",
      lit [Type_is TypeList;
        Computed_is true;
        Description_is
          "Determines whether Secrets Manager rotates your secrets automatically.";
        Elem_is (ElemResource [
          ("auto_rotate",
            lit [Type_is TypeBool;
              Computed_is true;
              Description_is
                "Determines whether Secrets Manager rotates your secret automatically.Default is `false`. If `auto_rotate` is set to `true` the service rotates your secret based on the defined interval."]);
          ("interval",
            lit [Type_is TypeInt;
              Computed_is true;
              Description_is
                "The length of the secret rotation time interval."]);
          ("unit",
            lit [Type_is TypeString;
              Computed_is true;
              Description_is
                "The units for the secret rotation time interval."]);
          ("rotate_keys",
            lit [Type_is TypeBool;
              Computed_is true;
              Description_is
                "Determines whether Secrets Manager rotates the private key for your public certificate automatically.Default is `false`. If it is set to `true`, the service generates and stores a new private key for your rotated certificate."])
        ])]);
    ("serial_number",
      lit [Type_is TypeString;
        Computed_is true;
        Description_is
          "The unique serial number that was assigned to a certificate by the issuing certificate authority."]);
    ("validity",
      lit [Type_is TypeList;
        Computed_is true;
        Description_is
          "The date and time that the certificate validity period begins and ends.";
        Elem_is (ElemResource [
          ("not_before",
            lit [Type_is TypeString;
              Computed_is true;
              Description_is
                "The date-time format follows RFC 3339."]);
          ("not_after",
            lit [Type_is TypeString;
              Computed_is true;
              Description_is
                "The date-time format follows RFC 3339."])
        ])]);
    ("revocation_time_seconds",
      lit [Type_is TypeInt;
        Computed_is true;
        Description_is
          "The timestamp of the certificate revocation."]);
    ("revocation_time_rfc3339",
      lit [Type_is TypeString;
        Computed_is true;
        Description_is
          "The date and time that the certificate was revoked. The date format follows RFC 3339."])
  ].

Definition DataSourceIbmSmUsernamePasswordSecretMetadata : Resource :=
  Build_Resource [
    ("id",
      lit [Type_is TypeString;
        Required_is true;
        Description_is
          "The ID of the secret."]);
    ("created_by",
      lit [Type_is TypeString;
        Computed_is true;
        Description_is
          "The unique identifier that is associated with the entity that created the secret."]);
    ("created_at",
      lit [Type_is TypeString;
        Computed_is true;
        Description_is
          "The date when a resource was created. The date format follows RFC 3339."]);
    ("crn",
      lit [Type_is TypeString;
        Computed_is true;
        Description_is
          "A CRN that uniquely identifies an IBM Cloud resource."]);
    ("custom_metadata",
      lit [Type_is TypeMap;
        Computed_is true;
        Description_is
          "The secret metadata that a user can customize.";
        Elem_is (ElemSchema (lit [Type_is TypeString]))]);
    ("description",
      lit [Type_is TypeString;
        Computed_is true;
        Description_is
          "An extended description of your secret.To protect your privacy, do not use personal data, such as your name or location, as a description for your secret group."]);
    ("downloaded",
      lit [Type_is TypeBool;
        Computed_is true;
        Description_is
          "Indicates whether the secret data that is associated with a secret version was retrieved in a call to the service API."]);
    ("labels",
      lit [Type_is TypeList;
        Computed_is true;
        Description_is
          "Labels that you can use to search for secrets in your instance.Up to 30 labels can be created.";
        Elem_is (ElemSchema (lit [Type_is TypeString]))]);
    ("locks_total",
      lit [Type_is TypeInt;
        Computed_is true;
        Description_is
          "The number of locks of the secret."]);
    ("name",
      lit [Type_is TypeString;
        Computed_is true;
        Description_is
          "The human-readable name of your secret."]);
    ("secret_group_id",
      lit [Type_is TypeString;
        Computed_is true;
        Description_is
          "A v4 UUID identifier, or `default` secret group."]);
    ("secret_type",
      lit [Type_is TypeString;
        Computed_is true;
        Description_is
          "The secret type. Supported types are arbitrary, certificates (imported, public, and private), IAM credentials, key-value, and user credentials."]);
    ("state",
      lit [Type_is TypeInt;
        Computed_is true;
        Description_is
          "The secret state that is based on NIST SP 800-57. States are integers and correspond to the `Pre-activation = 0`, `Active = 1`,  `Suspended = 2`, `Deactivated = 3`, and `Destroyed = 5` values."]);
    ("state_description",
      lit [Type_is TypeString;
        Computed_is true;
        Description_is
          "A text representation of the secret state."]);
    ("updated_at",
      lit [Type_is TypeString;
        Computed_is true;
        Description_is
          "The date when a resource was recently modified. The date format follows RFC 3339."]);
    ("versions_total",
      lit [Type_is TypeInt;
        Computed_is true;
        Description_is
          "The number of versions of the secret."]);
    ("rotation",
      lit [Type_is TypeList;
        Computed_is true;
        Description_is
          "Determines whether Secrets Manager rotates your secrets automatically.";
        Elem_is (ElemResource [
          ("auto_rotate",
            lit [Type_is TypeBool;
              Computed_is true;
              Description_is
                "Determines whether Secrets Manager rotates your secret automatically.Default is `false`. If `auto_rotate` is set to `true` the service rotates your secret based on the defined interval."]);
          ("interval",
            lit [Type_is TypeInt;
              Computed_is true;
              Description_is
                "The length of the secret rotation time interval."]);
          ("unit",
            lit [Type_is TypeString;
              Computed_is true;
              Description_is
                "The units for the secret rotation time interval."]);
          ("rotate_keys",
            lit [Type_is TypeBool;
              Computed_is true;
              Description_is
                "Determines whether Secrets Manager rotates the private key for your public certificate automatically.Default is `false`. If it is set to `true`, the service generates and stores a new private key for your rotated certificate."])
        ])]);
    ("expiration_date",
      lit [Type_is TypeString;
        Computed_is true;
        Description_is
          "The date a secret is expired. The date format follows RFC 3339."]);
    ("next_rotation_date",
      lit [Type_is TypeString;
        Computed_is true;
        Description_is
          "The date that the secret is scheduled for automatic rotation.The service automatically creates a new version of the secret on its next rotation date. This field exists only for secrets that have an existing rotation policy."])
  ].

(** ** Collaborators outside the two files

    [strfmt.DateTime] and [core.DetailedResponse] belong to external
    libraries; [flex.IntValue], [flex.DateTimeToString] and [flex.Flatten]
    belong to the provider's [flex] package, whose source is not part of the
    two files.  They are parameters of the development, at their Go
    signatures: [IntValue] maps an [*int64] to an [int],
    [DateTimeToString] maps a [*strfmt.DateTime] to a [string], and
    [Flatten] maps a [map[string]interface{}] to a [map[string]string]. *)
Class Collaborators : Type := {
  DateTime : Type;
  DateTime_String : DateTime → string;
  Any : Type;
  DetailedResponse : Type;
  DetailedResponse_String : option DetailedResponse → string;
  flex_IntValue : option Z → Z;
  flex_DateTimeToString : option DateTime → string;
  flex_Flatten : gmap string Any → gmap string string
}.

(** ** The metadata structs of [secretsmanagerv2] *)

Module CertificateValidity.
Record t {collaborators : Collaborators} : Type := Build {
  NotBefore : option DateTime;
  NotAfter : option DateTime
}.
Arguments Build {collaborators}.
End CertificateValidity.

(** The fields the read function mentions, at the types it uses them at,
    and the two slices [Labels] and [AltNames] that the schema declares as
    [labels] and [alt_names]. *)
Module PrivateCertificateMetadata.
Record t {collaborators : Collaborators} : Type := Build {
  ID : option string;
  CreatedBy : option string;
  CreatedAt : option DateTime;
  Crn : option string;
  CustomMetadata : option (gmap string Any);
  Description : option string;
  Downloaded : option bool;
  Labels : option (list string);
  LocksTotal : option Z;
  Name : option string;
  SecretGroupID : option string;
  SecretType : option string;
  State : option Z;
  StateDescription : option string;
  UpdatedAt : option DateTime;
  VersionsTotal : option Z;
  SigningAlgorithm : option string;
  AltNames : option (list string);
  CertificateAuthority : option string;
  CertificateTemplate : option string;
  CommonName : option string;
  ExpirationDate : option DateTime;
  Issuer : option string;
  KeyAlgorithm : option string;
  NextRotationDate : option DateTime;
  Rotation : option RotationPolicyIntf;
  SerialNumber : option string;
  Validity : option CertificateValidity.t;
  RevocationTimeSeconds : option Z;
  RevocationTimeRfc3339 : option DateTime
}.
Arguments Build {collaborators}.
End PrivateCertificateMetadata.

Module UsernamePasswordSecretMetadata.
Record t {collaborators : Collaborators} : Type := Build {
  ID : option string;
  CreatedBy : option string;
  CreatedAt : option DateTime;
  Crn : option string;
  CustomMetadata : option (gmap string Any);
  Description : option string;
  Downloaded : option bool;
  Labels : option (list string);
  LocksTotal : option Z;
  Name : option string;
  SecretGroupID : option string;
  SecretType : option string;
  State : option Z;
  StateDescription : option string;
  UpdatedAt : option DateTime;
  VersionsTotal : option Z;
  Rotation : option RotationPolicyIntf;
  ExpirationDate : option DateTime;
  NextRotationDate : option DateTime
}.
Arguments Build {collaborators}.
End UsernamePasswordSecretMetadata.

(** [secretsmanagerv2.SecretMetadataIntf]: the two dynamic types the data
    sources assert, every other implementation, and the nil interface. *)
Inductive SecretMetadataIntf {collaborators : Collaborators} : Type :=
| PrivateCertificateMetadataPtr (m : PrivateCertificateMetadata.t)
| UsernamePasswordSecretMetadataPtr (m : UsernamePasswordSecretMetadata.t)
| OtherSecretMetadata (dynamic_type : string)
| NilSecretMetadata.

(** ** The Secrets Manager client *)

Record GetSecretMetadataOptions : Type := Build_GetSecretMetadataOptions {
  Options_ID : option string
}.

Definition SetID (id : string) (options : GetSecretMetadataOptions)
    : GetSecretMetadataOptions :=
  Build_GetSecretMetadataOptions (Some id).

(** The client, as far as the data sources use it: what the service
    answers to a metadata request that reaches it (result, response and
    error), and the error the client reports for options that fail its
    validation. *)
Record SecretsManagerV2 {collaborators : Collaborators} : Type := Build_SecretsManagerV2 {
  Service_GetSecretMetadata :
    GetSecretMetadataOptions →
    SecretMetadataIntf * option DetailedResponse * option string;
  Validation_error : GetSecretMetadataOptions → string
}.
Arguments Build_SecretsManagerV2 {collaborators}.

(** The client validates the options before it sends anything
    ([core.ValidateStruct]): the [ID] of the options is tagged as required
    and not empty. *)
Definition valid_options (options : GetSecretMetadataOptions) : bool :=
  match Options_ID options with
  | Some id => negb (String.eqb id "")
  | None => false
  end.

(** The result, response and error of [GetSecretMetadataWithContext] for
    given options: the answer of the service to valid options; for options
    that fail the validation, the validation error with a nil result and a
    nil response. *)
Definition GetSecretMetadata {collaborators : Collaborators}
    (client : SecretsManagerV2) (options : GetSecretMetadataOptions)
    : SecretMetadataIntf * option DetailedResponse * option string :=
  if valid_options options then Service_GetSecretMetadata client options
  else (NilSecretMetadata, None, Some (Validation_error client options)).

(** The requests a call with [options] sends out: one, or none when the
    options fail the validation. *)
Definition sent (options : GetSecretMetadataOptions)
    : list GetSecretMetadataOptions :=
  if valid_options options then [options] else [].

(** [conns.ClientSession]: [SecretsManagerV2()] yields the client, or the
    error of the session. *)
Record ClientSession {collaborators : Collaborators} : Type := Build_ClientSession {
  ClientSession_SecretsManagerV2 : string + SecretsManagerV2
}.
Arguments Build_ClientSession {collaborators}.

(** ** Diagnostics *)

Inductive Severity : Type := Error | Warning.

Record Diagnostic : Type := Build_Diagnostic {
  Diagnostic_Severity : Severity;
  Diagnostic_Summary : string
}.

(** [diag.FromErr] of a non-nil error. *)
Definition diag_FromErr (err : string) : list Diagnostic :=
  [Build_Diagnostic Error err].

Definition LF : string := String "010"%char "".

(** ** Execution of a read function

    A read function runs against the [ResourceData] it mutates and the
    remote service it calls; [run_calls] records every outbound
    [GetSecretMetadata] request, latest first.  A statement continues with
    a value, returns from the function with diagnostics, or panics. *)
Inductive Flow (A : Type) : Type :=
| Next (a : A)
| Return (diags : list Diagnostic)
| Panic (reason : string).
Arguments Next {A} a.
Arguments Return {A} diags.
Arguments Panic {A} reason.

Record Run : Type := Build_Run {
  run_d : ResourceData;
  run_calls : list GetSecretMetadataOptions
}.

Definition Exec (A : Type) : Type := Run → Flow A * Run.

(** Sequencing: the statements after [m] run only when [m] continues. *)
Definition next {A : Type} (a : A) : Exec A := λ r, (Next a, r).

Definition bind {A B : Type} (m : Exec A) (k : A → Exec B) : Exec B :=
  λ r, match m r with
       | (Next a, r') => k a r'
       | (Return diags, r') => (Return diags, r')
       | (Panic reason, r') => (Panic reason, r')
       end.

Declare Scope exec_scope.
Delimit Scope exec_scope with exec.
Bind Scope exec_scope with Exec.
Notation "x ← y ; z" := (bind y (λ x : _, z))
  (at level 20, y at level 100, z at level 200, only parsing) : exec_scope.
Notation "' x ← y ; z" := (bind y (λ x : _, z))
  (at level 20, x pattern, y at level 100, z at level 200, only parsing)
  : exec_scope.
Notation "x ;; z" := (bind x (λ _, z))
  (at level 100, z at level 200, only parsing, right associativity)
  : exec_scope.
Local Open Scope exec_scope.

Definition return_ {A : Type} (diags : list Diagnostic) : Exec A :=
  λ r, (Return diags, r).

Definition panic {A : Type} (reason : string) : Exec A :=
  λ r, (Panic reason, r).

Definition get_d : Exec ResourceData := λ r, (Next (run_d r), r).

Definition d_Get (key : string) : Exec (option attr) :=
  λ r, (Next (ResourceData_Get key (run_d r)), r).

Definition d_SetId (v : string) : Exec unit :=
  λ r, (Next tt, Build_Run (ResourceData_SetId v (run_d r)) (run_calls r)).

Definition d_Set (key : string) (v : value) : Exec (option string) :=
  λ r, let '(err, d) := ResourceData_Set key v (run_d r) in
       (Next err, Build_Run d (run_calls r)).

(** [if err != nil { ... }] *)
Definition if_err (err : option string) (body : string → Exec unit)
    : Exec unit :=
  match err with
  | Some err => body err
  | None => next tt
  end.

(** The type assertion [v.(string)] on the result of [d.Get]. *)
Definition assert_string (v : option attr) : Exec string :=
  match v with
  | Some (AScalar (SString s)) => next s
  | _ => panic "interface conversion: interface {} is not string"
  end.

(** The dereference [*p]. *)
Definition deref {A : Type} (p : option A) : Exec A :=
  match p with
  | Some v => next v
  | None => panic "invalid memory address or nil pointer dereference"
  end.

(** [for k, v := range m { convertedMap[k] = v }] into a fresh map. *)
Definition range_copy {V : Type} (m : gmap string V) : gmap string V :=
  map_fold (λ k v convertedMap, <[k := v]> convertedMap) ∅ m.

(** ** Private certificate metadata: the validity mapper *)

Definition dataSourceIbmSmPrivateCertificateMetadataCertificateValidityToMap
    {collaborators : Collaborators} (model : CertificateValidity.t) : map_result :=
  let modelMap : gmap string scalar := ∅ in
  let modelMap := assign_if_non_nil "not_before" (λ t, SString (DateTime_String t))
                    (CertificateValidity.NotBefore model) modelMap in
  let modelMap := assign_if_non_nil "not_after" (λ t, SString (DateTime_String t))
                    (CertificateValidity.NotAfter model) modelMap in
  (Some modelMap, None).

(** ** The read functions *)

Section Read.
Context {collaborators : Collaborators}.

(** [getClientWithInstanceEndpoint] is defined elsewhere in the package: it
    derives the client of the instance named by the configuration. *)
Variable getClientWithInstanceEndpoint :
  SecretsManagerV2 → ResourceData → SecretsManagerV2.

(** One call of the client, which sends one outbound request unless the
    options fail its validation; the cancellation context is not
    modelled. *)
Definition GetSecretMetadataWithContext (client : SecretsManagerV2)
    (options : GetSecretMetadataOptions)
    : Exec (SecretMetadataIntf * option DetailedResponse * option string) :=
  λ r, (Next (GetSecretMetadata client options),
        Build_Run (run_d r) (sent options ++ run_calls r)%list).

(** The type assertion of [intf] to a [PrivateCertificateMetadata] pointer. *)
Definition assert_PrivateCertificateMetadata (intf : SecretMetadataIntf)
    : Exec PrivateCertificateMetadata.t :=
  match intf with
  | PrivateCertificateMetadataPtr m => next m
  | _ => panic "interface conversion: interface is not *secretsmanagerv2.PrivateCertificateMetadata"
  end.

(** The type assertion of [intf] to a [UsernamePasswordSecretMetadata]
  pointer. *)
Definition assert_UsernamePasswordSecretMetadata (intf : SecretMetadataIntf)
    : Exec UsernamePasswordSecretMetadata.t :=
  match intf with
  | UsernamePasswordSecretMetadataPtr m => next m
  | _ => panic "interface conversion: interface is not *secretsmanagerv2.UsernamePasswordSecretMetadata"
  end.

(** The read function of the private-certificate metadata data source.
    [d] is the resource data of the run; the debug log line of the failed
    fetch is not modelled. *)
Definition dataSourceIbmSmPrivateCertificateMetadataRead
    (meta : ClientSession) : Exec Empty_set :=
  match ClientSession_SecretsManagerV2 meta with
  | inl err => return_ (diag_FromErr err)
  | inr secretsManagerClient =>
  d ← get_d;
  let secretsManagerClient := getClientWithInstanceEndpoint secretsManagerClient d in
  let getSecretMetadataOptions := Build_GetSecretMetadataOptions None in
  v ← d_Get "id";
  id ← assert_string v;
  let getSecretMetadataOptions := SetID id getSecretMetadataOptions in
  '(privateCertificateMetadataIntf, response, err) ←
    GetSecretMetadataWithContext secretsManagerClient getSecretMetadataOptions;
  if_err err (λ err,
    return_ (diag_FromErr ("GetSecretMetadataWithContext failed " +:+ err +:+ LF
                           +:+ DetailedResponse_String response)));;
  privateCertificateMetadata ←
    assert_PrivateCertificateMetadata privateCertificateMetadataIntf;
  id ← deref (PrivateCertificateMetadata.ID privateCertificateMetadata);
  d_SetId id;;
  err ← d_Set "created_by"
           (Ptr (SString <$>
              PrivateCertificateMetadata.CreatedBy privateCertificateMetadata));
  if_err err (λ err,
    return_ (diag_FromErr ("Error setting created_by: " +:+ err)));;
  err ← d_Set "created_at"
           (Scalar (SString (flex_DateTimeToString
              (PrivateCertificateMetadata.CreatedAt privateCertificateMetadata))));
  if_err err (λ err,
    return_ (diag_FromErr ("Error setting created_at: " +:+ err)));;
  err ← d_Set "crn"
           (Ptr (SString <$>
              PrivateCertificateMetadata.Crn privateCertificateMetadata));
  if_err err (λ err,
    return_ (diag_FromErr ("Error setting crn: " +:+ err)));;
  match PrivateCertificateMetadata.CustomMetadata
          privateCertificateMetadata with
  | Some customMetadata =>
      let convertedMap := range_copy customMetadata in
      err ← d_Set "custom_metadata"
               (MapOfString (flex_Flatten convertedMap));
      if_err err (λ err,
        return_ (diag_FromErr ("Error setting custom_metadata: " +:+ err)));;
      if_err err (λ err,
        return_ (diag_FromErr ("Error setting custom_metadata " +:+ err)))
  | None => next tt
  end;;
  err ← d_Set "description"
           (Ptr (SString <$>
              PrivateCertificateMetadata.Description privateCertificateMetadata));
  if_err err (λ err,
    return_ (diag_FromErr ("Error setting description: " +:+ err)));;
  err ← d_Set "downloaded"
           (Ptr (SBool <$>
              PrivateCertificateMetadata.Downloaded privateCertificateMetadata));
  if_err err (λ err,
    return_ (diag_FromErr ("Error setting downloaded: " +:+ err)));;
  err ← d_Set "locks_total"
           (Scalar (SInt (flex_IntValue
              (PrivateCertificateMetadata.LocksTotal privateCertificateMetadata))));
  if_err err (λ err,
    return_ (diag_FromErr ("Error setting locks_total: " +:+ err)));;
  err ← d_Set "name"
           (Ptr (SString <$>
              PrivateCertificateMetadata.Name privateCertificateMetadata));
  if_err err (λ err,
    return_ (diag_FromErr ("Error setting name: " +:+ err)));;
  err ← d_Set "secret_group_id"
           (Ptr (SString <$>
              PrivateCertificateMetadata.SecretGroupID privateCertificateMetadata));
  if_err err (λ err,
    return_ (diag_FromErr ("Error setting secret_group_id: " +:+ err)));;
  err ← d_Set "secret_type"
           (Ptr (SString <$>
              PrivateCertificateMetadata.SecretType privateCertificateMetadata));
  if_err err (λ err,
    return_ (diag_FromErr ("Error setting secret_type: " +:+ err)));;
  err ← d_Set "state"
           (Scalar (SInt (flex_IntValue
              (PrivateCertificateMetadata.State privateCertificateMetadata))));
  if_err err (λ err,
    return_ (diag_FromErr ("Error setting state: " +:+ err)));;
  err ← d_Set "state_description"
           (Ptr (SString <$>
              PrivateCertificateMetadata.StateDescription privateCertificateMetadata));
  if_err err (λ err,
    return_ (diag_FromErr ("Error setting state_description: " +:+ err)));;
  err ← d_Set "updated_at"
           (Scalar (SString (flex_DateTimeToString
              (PrivateCertificateMetadata.UpdatedAt privateCertificateMetadata))));
  if_err err (λ err,
    return_ (diag_FromErr ("Error setting updated_at: " +:+ err)));;
  err ← d_Set "versions_total"
           (Scalar (SInt (flex_IntValue
              (PrivateCertificateMetadata.VersionsTotal privateCertificateMetadata))));
  if_err err (λ err,
    return_ (diag_FromErr ("Error setting versions_total: " +:+ err)));;
  err ← d_Set "signing_algorithm"
           (Ptr (SString <$>
              PrivateCertificateMetadata.SigningAlgorithm privateCertificateMetadata));
  if_err err (λ err,
    return_ (diag_FromErr ("Error setting signing_algorithm: " +:+ err)));;
  err ← d_Set "certificate_authority"
           (Ptr (SString <$>
              PrivateCertificateMetadata.CertificateAuthority privateCertificateMetadata));
  if_err err (λ err,
    return_ (diag_FromErr ("Error setting certificate_authority: " +:+ err)));;
  err ← d_Set "certificate_template"
           (Ptr (SString <$>
              PrivateCertificateMetadata.CertificateTemplate privateCertificateMetadata));
  if_err err (λ err,
    return_ (diag_FromErr ("Error setting certificate_template: " +:+ err)));;
  err ← d_Set "common_name"
           (Ptr (SString <$>
              PrivateCertificateMetadata.CommonName privateCertificateMetadata));
  if_err err (λ err,
    return_ (diag_FromErr ("Error setting common_name: " +:+ err)));;
  err ← d_Set "expiration_date"
           (Scalar (SString (flex_DateTimeToString
              (PrivateCertificateMetadata.ExpirationDate privateCertificateMetadata))));
  if_err err (λ err,
    return_ (diag_FromErr ("Error setting expiration_date: " +:+ err)));;
  err ← d_Set "issuer"
           (Ptr (SString <$>
              PrivateCertificateMetadata.Issuer privateCertificateMetadata));
  if_err err (λ err,
    return_ (diag_FromErr ("Error setting issuer: " +:+ err)));;
  err ← d_Set "key_algorithm"
           (Ptr (SString <$>
              PrivateCertificateMetadata.KeyAlgorithm privateCertificateMetadata));
  if_err err (λ err,
    return_ (diag_FromErr ("Error setting key_algorithm: " +:+ err)));;
  err ← d_Set "next_rotation_date"
           (Scalar (SString (flex_DateTimeToString
              (PrivateCertificateMetadata.NextRotationDate privateCertificateMetadata))));
  if_err err (λ err,
    return_ (diag_FromErr ("Error setting next_rotation_date: " +:+ err)));;
  let rotation : list (gmap string scalar) := [] in
  rotation ←
    match PrivateCertificateMetadata.Rotation
            privateCertificateMetadata with
    | Some model =>
        let '(modelMap, err) :=
          dataSourceIbmSmPrivateCertificateMetadataRotationPolicyToMap model in
        if_err err (λ err, return_ (diag_FromErr err));;
        next (rotation ++ [default ∅ modelMap])%list
    | None => next rotation
    end;
  err ← d_Set "rotation"
           (ListOfMaps rotation);
  if_err err (λ err,
    return_ (diag_FromErr ("Error setting rotation " +:+ err)));;
  err ← d_Set "serial_number"
           (Ptr (SString <$>
              PrivateCertificateMetadata.SerialNumber privateCertificateMetadata));
  if_err err (λ err,
    return_ (diag_FromErr ("Error setting serial_number: " +:+ err)));;
  let validity : list (gmap string scalar) := [] in
  validity ←
    match PrivateCertificateMetadata.Validity
            privateCertificateMetadata with
    | Some model =>
        let '(modelMap, err) :=
          dataSourceIbmSmPrivateCertificateMetadataCertificateValidityToMap model in
        if_err err (λ err, return_ (diag_FromErr err));;
        next (validity ++ [default ∅ modelMap])%list
    | None => next validity
    end;
  err ← d_Set "validity"
           (ListOfMaps validity);
  if_err err (λ err,
    return_ (diag_FromErr ("Error setting validity " +:+ err)));;
  err ← d_Set "revocation_time_seconds"
           (Scalar (SInt (flex_IntValue
              (PrivateCertificateMetadata.RevocationTimeSeconds privateCertificateMetadata))));
  if_err err (λ err,
    return_ (diag_FromErr ("Error setting revocation_time_seconds: " +:+ err)));;
  err ← d_Set "revocation_time_rfc3339"
           (Scalar (SString (flex_DateTimeToString
              (PrivateCertificateMetadata.RevocationTimeRfc3339 privateCertificateMetadata))));
  if_err err (λ err,
    return_ (diag_FromErr ("Error setting revocation_time_rfc3339: " +:+ err)));;
  return_ []
  end.

(** The read function of the username/password secret metadata data
    source. *)
Definition dataSourceIbmSmUsernamePasswordSecretMetadataRead
    (meta : ClientSession) : Exec Empty_set :=
  match ClientSession_SecretsManagerV2 meta with
  | inl err => return_ (diag_FromErr err)
  | inr secretsManagerClient =>
  d ← get_d;
  let secretsManagerClient := getClientWithInstanceEndpoint secretsManagerClient d in
  let getSecretMetadataOptions := Build_GetSecretMetadataOptions None in
  v ← d_Get "id";
  id ← assert_string v;
  let getSecretMetadataOptions := SetID id getSecretMetadataOptions in
  '(usernamePasswordSecretMetadataIntf, response, err) ←
    GetSecretMetadataWithContext secretsManagerClient getSecretMetadataOptions;
  if_err err (λ err,
    return_ (diag_FromErr ("GetSecretMetadataWithContext failed " +:+ err +:+ LF
                           +:+ DetailedResponse_String response)));;
  usernamePasswordSecretMetadata ←
    assert_UsernamePasswordSecretMetadata usernamePasswordSecretMetadataIntf;
  id ← deref (UsernamePasswordSecretMetadata.ID usernamePasswordSecretMetadata);
  d_SetId id;;
  err ← d_Set "created_by"
           (Ptr (SString <$>
              UsernamePasswordSecretMetadata.CreatedBy usernamePasswordSecretMetadata));
  if_err err (λ err,
    return_ (diag_FromErr ("Error setting created_by: " +:+ err)));;
  err ← d_Set "created_at"
           (Scalar (SString (flex_DateTimeToString
              (UsernamePasswordSecretMetadata.CreatedAt usernamePasswordSecretMetadata))));
  if_err err (λ err,
    return_ (diag_FromErr ("Error setting created_at: " +:+ err)));;
  err ← d_Set "crn"
           (Ptr (SString <$>
              UsernamePasswordSecretMetadata.Crn usernamePasswordSecretMetadata));
  if_err err (λ err,
    return_ (diag_FromErr ("Error setting crn: " +:+ err)));;
  match UsernamePasswordSecretMetadata.CustomMetadata
          usernamePasswordSecretMetadata with
  | Some customMetadata =>
      let convertedMap := range_copy customMetadata in
      err ← d_Set "custom_metadata"
               (MapOfString (flex_Flatten convertedMap));
      if_err err (λ err,
        return_ (diag_FromErr ("Error setting custom_metadata: " +:+ err)));;
      if_err err (λ err,
        return_ (diag_FromErr ("Error setting custom_metadata " +:+ err)))
  | None => next tt
  end;;
  err ← d_Set "description"
           (Ptr (SString <$>
              UsernamePasswordSecretMetadata.Description usernamePasswordSecretMetadata));
  if_err err (λ err,
    return_ (diag_FromErr ("Error setting description: " +:+ err)));;
  err ← d_Set "downloaded"
           (Ptr (SBool <$>
              UsernamePasswordSecretMetadata.Downloaded usernamePasswordSecretMetadata));
  if_err err (λ err,
    return_ (diag_FromErr ("Error setting downloaded: " +:+ err)));;
  err ← d_Set "locks_total"
           (Scalar (SInt (flex_IntValue
              (UsernamePasswordSecretMetadata.LocksTotal usernamePasswordSecretMetadata))));
  if_err err (λ err,
    return_ (diag_FromErr ("Error setting locks_total: " +:+ err)));;
  err ← d_Set "name"
           (Ptr (SString <$>
              UsernamePasswordSecretMetadata.Name usernamePasswordSecretMetadata));
  if_err err (λ err,
    return_ (diag_FromErr ("Error setting name: " +:+ err)));;
  err ← d_Set "secret_group_id"
           (Ptr (SString <$>
              UsernamePasswordSecretMetadata.SecretGroupID usernamePasswordSecretMetadata));
  if_err err (λ err,
    return_ (diag_FromErr ("Error setting secret_group_id: " +:+ err)));;
  err ← d_Set "secret_type"
           (Ptr (SString <$>
              UsernamePasswordSecretMetadata.SecretType usernamePasswordSecretMetadata));
  if_err err (λ err,
    return_ (diag_FromErr ("Error setting secret_type: " +:+ err)));;
  err ← d_Set "state"
           (Scalar (SInt (flex_IntValue
              (UsernamePasswordSecretMetadata.State usernamePasswordSecretMetadata))));
  if_err err (λ err,
    return_ (diag_FromErr ("Error setting state: " +:+ err)));;
  err ← d_Set "state_description"
           (Ptr (SString <$>
              UsernamePasswordSecretMetadata.StateDescription usernamePasswordSecretMetadata));
  if_err err (λ err,
    return_ (diag_FromErr ("Error setting state_description: " +:+ err)));;
  err ← d_Set "updated_at"
           (Scalar (SString (flex_DateTimeToString
              (UsernamePasswordSecretMetadata.UpdatedAt usernamePasswordSecretMetadata))));
  if_err err (λ err,
    return_ (diag_FromErr ("Error setting updated_at: " +:+ err)));;
  err ← d_Set "versions_total"
           (Scalar (SInt (flex_IntValue
              (UsernamePasswordSecretMetadata.VersionsTotal usernamePasswordSecretMetadata))));
  if_err err (λ err,
    return_ (diag_FromErr ("Error setting versions_total: " +:+ err)));;
  let rotation : list (gmap string scalar) := [] in
  rotation ←
    match UsernamePasswordSecretMetadata.Rotation
            usernamePasswordSecretMetadata with
    | Some model =>
        let '(modelMap, err) :=
          dataSourceIbmSmUsernamePasswordSecretMetadataRotationPolicyToMap model in
        if_err err (λ err, return_ (diag_FromErr err));;
        next (rotation ++ [default ∅ modelMap])%list
    | None => next rotation
    end;
  err ← d_Set "rotation"
           (ListOfMaps rotation);
  if_err err (λ err,
    return_ (diag_FromErr ("Error setting rotation " +:+ err)));;
  err ← d_Set "expiration_date"
           (Scalar (SString (flex_DateTimeToString
              (UsernamePasswordSecretMetadata.ExpirationDate usernamePasswordSecretMetadata))));
  if_err err (λ err,
    return_ (diag_FromErr ("Error setting expiration_date: " +:+ err)));;
  err ← d_Set "next_rotation_date"
           (Scalar (SString (flex_DateTimeToString
              (UsernamePasswordSecretMetadata.NextRotationDate usernamePasswordSecretMetadata))));
  if_err err (λ err,
    return_ (diag_FromErr ("Error setting next_rotation_date: " +:+ err)));;
  return_ []
  end.

(** One invocation by the Terraform runtime: the read function runs against
    [d], with no request made yet. *)
Definition invoke (read : ClientSession → Exec Empty_set)
    (d : ResourceData) (meta : ClientSession) : Flow Empty_set * Run :=
  read meta (Build_Run d []).

End Read.

(** ** The two data sources side by side *)

Inductive data_source : Type := PrivateCertificate | UsernamePassword.

Definition DataSource_Resource (ds : data_source) : Resource :=
  match ds with
  | PrivateCertificate => DataSourceIbmSmPrivateCertificateMetadata
  | UsernamePassword => DataSourceIbmSmUsernamePasswordSecretMetadata
  end.

Definition RotationPolicyToMap (ds : data_source)
    : RotationPolicyIntf → map_result :=
  match ds with
  | PrivateCertificate =>
      dataSourceIbmSmPrivateCertificateMetadataRotationPolicyToMap
  | UsernamePassword =>
      dataSourceIbmSmUsernamePasswordSecretMetadataRotationPolicyToMap
  end.

(** A rotation policy of one of the three shapes the mappers know. *)
Definition recognized (model : RotationPolicyIntf) : bool :=
  match model with
  | OtherRotationPolicy _ => false
  | _ => true
  end.

(** [modelMap] holds exactly [fields]: each listed key maps to the listed
    content (nothing, for a nil field), and no other key is present. *)
Definition holds_exactly (modelMap : gmap string scalar)
    (fields : list (string * option scalar)) : Prop :=
  Forall (λ kv, modelMap !! kv.1 = kv.2) fields
  ∧ dom modelMap ⊆ list_to_set fields.*1.

(** ** What a write accepts *)

(** What [d.Set] accepts under a schema map: a declared key, and either
    nil or a value of the declared type. *)
Definition accepted (fields : list (string * Schema)) (key : string)
    (a : option attr) : bool :=
  match schema_of fields key, a with
  | Some s, Some a => conforms s a
  | Some s, None => true
  | None, _ => false
  end.

(** ** What a read writes

    The writes a successful read performs, in program order: the attribute
    name and the value written to it ([None] is the nil value, which
    leaves the attribute at the zero value of its type). *)

Definition apply_writes (writes : list (string * option attr))
    (d : ResourceData) : ResourceData :=
  fold_left (λ d w, store w.1 w.2 d) writes d.

(** The content the latest write to [key] left, if [key] was written. *)
Fixpoint written (writes : list (string * option attr)) (key : string)
    : option (option attr) :=
  match writes with
  | [] => None
  | w :: writes =>
      match written writes key with
      | Some a => Some a
      | None => if decide (w.1 = key) then Some w.2 else None
      end
  end.

Definition rotation_list (ds : data_source) (o : option RotationPolicyIntf)
    : list (gmap string scalar) :=
  match o with
  | Some model => [default ∅ (RotationPolicyToMap ds model).1]
  | None => []
  end.

Section Writes.
Context {collaborators : Collaborators}.

Definition validity_list (o : option CertificateValidity.t)
    : list (gmap string scalar) :=
  match o with
  | Some model =>
      [default ∅
         (dataSourceIbmSmPrivateCertificateMetadataCertificateValidityToMap
            model).1]
  | None => []
  end.

Definition PrivateCertificate_writes_before_rotation (m : PrivateCertificateMetadata.t)
    : list (string * option attr) :=
  ([("created_by",
     AScalar <$> (SString <$> PrivateCertificateMetadata.CreatedBy m));
    ("created_at",
     Some (AScalar (SString (flex_DateTimeToString (PrivateCertificateMetadata.CreatedAt m)))));
    ("crn",
     AScalar <$> (SString <$> PrivateCertificateMetadata.Crn m))]
   ++ match PrivateCertificateMetadata.CustomMetadata m with
     | Some customMetadata =>
         [("custom_metadata", Some (AMap (flex_Flatten customMetadata)))]
     | None => []
     end
   ++ [("description",
     AScalar <$> (SString <$> PrivateCertificateMetadata.Description m));
    ("downloaded",
     AScalar <$> (SBool <$> PrivateCertificateMetadata.Downloaded m));
    ("locks_total",
     Some (AScalar (SInt (flex_IntValue (PrivateCertificateMetadata.LocksTotal m)))));
    ("name",
     AScalar <$> (SString <$> PrivateCertificateMetadata.Name m));
    ("secret_group_id",
     AScalar <$> (SString <$> PrivateCertificateMetadata.SecretGroupID m));
    ("secret_type",
     AScalar <$> (SString <$> PrivateCertificateMetadata.SecretType m));
    ("state",
     Some (AScalar (SInt (flex_IntValue (PrivateCertificateMetadata.State m)))));
    ("state_description",
     AScalar <$> (SString <$> PrivateCertificateMetadata.StateDescription m));
    ("updated_at",
     Some (AScalar (SString (flex_DateTimeToString (PrivateCertificateMetadata.UpdatedAt m)))));
    ("versions_total",
     Some (AScalar (SInt (flex_IntValue (PrivateCertificateMetadata.VersionsTotal m)))));
    ("signing_algorithm",
     AScalar <$> (SString <$> PrivateCertificateMetadata.SigningAlgorithm m));
    ("certificate_authority",
     AScalar <$> (SString <$> PrivateCertificateMetadata.CertificateAuthority m));
    ("certificate_template",
     AScalar <$> (SString <$> PrivateCertificateMetadata.CertificateTemplate m));
    ("common_name",
     AScalar <$> (SString <$> PrivateCertificateMetadata.CommonName m));
    ("expiration_date",
     Some (AScalar (SString (flex_DateTimeToString (PrivateCertificateMetadata.ExpirationDate m)))));
    ("issuer",
     AScalar <$> (SString <$> PrivateCertificateMetadata.Issuer m));
    ("key_algorithm",
     AScalar <$> (SString <$> PrivateCertificateMetadata.KeyAlgorithm m));
    ("next_rotation_date",
     Some (AScalar (SString (flex_DateTimeToString (PrivateCertificateMetadata.NextRotationDate m)))))])%list.

Definition PrivateCertificate_writes_after_rotation (m : PrivateCertificateMetadata.t)
    (validity : list (gmap string scalar))
    : list (string * option attr) :=
  ([("serial_number",
     AScalar <$> (SString <$> PrivateCertificateMetadata.SerialNumber m))]
   ++ [("validity", Some (AList validity))]
   ++ [("revocation_time_seconds",
     Some (AScalar (SInt (flex_IntValue (PrivateCertificateMetadata.RevocationTimeSeconds m)))));
    ("revocation_time_rfc3339",
     Some (AScalar (SString (flex_DateTimeToString (PrivateCertificateMetadata.RevocationTimeRfc3339 m)))))])%list.

Definition UsernamePassword_writes_before_rotation (m : UsernamePasswordSecretMetadata.t)
    : list (string * option attr) :=
  ([("created_by",
     AScalar <$> (SString <$> UsernamePasswordSecretMetadata.CreatedBy m));
    ("created_at",
     Some (AScalar (SString (flex_DateTimeToString (UsernamePasswordSecretMetadata.CreatedAt m)))));
    ("crn",
     AScalar <$> (SString <$> UsernamePasswordSecretMetadata.Crn m))]
   ++ match UsernamePasswordSecretMetadata.CustomMetadata m with
     | Some customMetadata =>
         [("custom_metadata", Some (AMap (flex_Flatten customMetadata)))]
     | None => []
     end
   ++ [("description",
     AScalar <$> (SString <$> UsernamePasswordSecretMetadata.Description m));
    ("downloaded",
     AScalar <$> (SBool <$> UsernamePasswordSecretMetadata.Downloaded m));
    ("locks_total",
     Some (AScalar (SInt (flex_IntValue (UsernamePasswordSecretMetadata.LocksTotal m)))));
    ("name",
     AScalar <$> (SString <$> UsernamePasswordSecretMetadata.Name m));
    ("secret_group_id",
     AScalar <$> (SString <$> UsernamePasswordSecretMetadata.SecretGroupID m));
    ("secret_type",
     AScalar <$> (SString <$> UsernamePasswordSecretMetadata.SecretType m));
    ("state",
     Some (AScalar (SInt (flex_IntValue (UsernamePasswordSecretMetadata.State m)))));
    ("state_description",
     AScalar <$> (SString <$> UsernamePasswordSecretMetadata.StateDescription m));
    ("updated_at",
     Some (AScalar (SString (flex_DateTimeToString (UsernamePasswordSecretMetadata.UpdatedAt m)))));
    ("versions_total",
     Some (AScalar (SInt (flex_IntValue (UsernamePasswordSecretMetadata.VersionsTotal m)))))])%list.

Definition UsernamePassword_writes_after_rotation (m : UsernamePasswordSecretMetadata.t)
    : list (string * option attr) :=
  ([("expiration_date",
     Some (AScalar (SString (flex_DateTimeToString (UsernamePasswordSecretMetadata.ExpirationDate m)))));
    ("next_rotation_date",
     Some (AScalar (SString (flex_DateTimeToString (UsernamePasswordSecretMetadata.NextRotationDate m)))))])%list.

Definition PrivateCertificate_writes (m : PrivateCertificateMetadata.t)
    : list (string * option attr) :=
  (PrivateCertificate_writes_before_rotation m
   ++ [("rotation",
        Some (AList (rotation_list PrivateCertificate
                       (PrivateCertificateMetadata.Rotation m))))]
   ++ PrivateCertificate_writes_after_rotation m
        (validity_list (PrivateCertificateMetadata.Validity m)))%list.

Definition UsernamePassword_writes (m : UsernamePasswordSecretMetadata.t)
    : list (string * option attr) :=
  (UsernamePassword_writes_before_rotation m
   ++ [("rotation",
        Some (AList (rotation_list UsernamePassword
                       (UsernamePasswordSecretMetadata.Rotation m))))]
   ++ UsernamePassword_writes_after_rotation m)%list.

End Writes.

(** ** The request of an invocation *)

(** The identifier the configuration supplies: the string [d.Get("id")]
    yields. *)
Definition requested_id (d : ResourceData) : string :=
  match ResourceData_Get "id" d with
  | Some (AScalar (SString s)) => s
  | _ => ""
  end.

(** The options of the call a read makes. *)
Definition request_of (d : ResourceData) : GetSecretMetadataOptions :=
  Build_GetSecretMetadataOptions (Some (requested_id d)).

(** ** Either read function *)

Section Either.
Context {collaborators : Collaborators}.
Variable getClientWithInstanceEndpoint :
  SecretsManagerV2 → ResourceData → SecretsManagerV2.

Definition Read (ds : data_source) : ClientSession → Exec Empty_set :=
  match ds with
  | PrivateCertificate =>
      dataSourceIbmSmPrivateCertificateMetadataRead
        getClientWithInstanceEndpoint
  | UsernamePassword =>
      dataSourceIbmSmUsernamePasswordSecretMetadataRead
        getClientWithInstanceEndpoint
  end.

(** The response has the concrete type the data source asserts. *)
Definition expected_type (ds : data_source) (intf : SecretMetadataIntf)
    : bool :=
  match ds, intf with
  | PrivateCertificate, PrivateCertificateMetadataPtr _ => true
  | UsernamePassword, UsernamePasswordSecretMetadataPtr _ => true
  | _, _ => false
  end.

Definition metadata_ID (intf : SecretMetadataIntf) : option string :=
  match intf with
  | PrivateCertificateMetadataPtr m => PrivateCertificateMetadata.ID m
  | UsernamePasswordSecretMetadataPtr m => UsernamePasswordSecretMetadata.ID m
  | _ => None
  end.

Definition metadata_Rotation (intf : SecretMetadataIntf)
    : option RotationPolicyIntf :=
  match intf with
  | PrivateCertificateMetadataPtr m => PrivateCertificateMetadata.Rotation m
  | UsernamePasswordSecretMetadataPtr m =>
      UsernamePasswordSecretMetadata.Rotation m
  | _ => None
  end.

Definition metadata_writes (intf : SecretMetadataIntf)
    : list (string * option attr) :=
  match intf with
  | PrivateCertificateMetadataPtr m => PrivateCertificate_writes m
  | UsernamePasswordSecretMetadataPtr m => UsernamePassword_writes m
  | _ => []
  end.

Definition metadata_writes_before_rotation (intf : SecretMetadataIntf)
    : list (string * option attr) :=
  match intf with
  | PrivateCertificateMetadataPtr m =>
      PrivateCertificate_writes_before_rotation m
  | UsernamePasswordSecretMetadataPtr m =>
      UsernamePassword_writes_before_rotation m
  | _ => []
  end.

Definition fetch_failed_message (err : string)
    (response : option DetailedResponse) : string :=
  "GetSecretMetadataWithContext failed " +:+ err +:+ LF
  +:+ DetailedResponse_String response.

End Either.

(** ** Closed examples *)

(** [strfmt.DateTime] of the go-openapi library, for the closed examples:
    an instant in UTC, given by its calendar fields and the milliseconds of
    its second. *)
Module strfmt.

Record DateTime : Type := Build_DateTime {
  year : N;
  month : N;
  day : N;
  hour : N;
  minute : N;
  second : N;
  millisecond : N
}.

Fixpoint zeros (n : nat) : string :=
  match n with
  | O => ""
  | S n => "0" +:+ zeros n
  end.

(** [n] in decimal, padded with zeros to [width] digits. *)
Definition digits (width : nat) (n : N) : string :=
  let text := NilZero.string_of_uint (N.to_uint n) in
  zeros (width - String.length text) +:+ text.

(** [DateTime.String()] formats the instant with the layout
    [2006-01-02T15:04:05.000Z07:00]: RFC 3339 with three fractional
    digits, the zone of a UTC instant being [Z]. *)
Definition DateTime_String (t : DateTime) : string :=
  digits 4 (year t) +:+ "-" +:+ digits 2 (month t) +:+ "-"
  +:+ digits 2 (day t) +:+ "T" +:+ digits 2 (hour t) +:+ ":"
  +:+ digits 2 (minute t) +:+ ":" +:+ digits 2 (second t) +:+ "."
  +:+ digits 3 (millisecond t) +:+ "Z".

End strfmt.

(** Modelled from the spec: the helpers [flex.IntValue],
    [flex.DateTimeToString] and [flex.Flatten], whose source is not among
    the two files, for closed examples only.  [IntValue] unwraps a non-nil
    integer, [DateTimeToString] renders a non-nil timestamp, [Flatten] keeps
    a map of strings as it is; for nil the first two yield the zero value
    of their Go result type.  A timestamp is a [strfmt.DateTime]; a
    response is given by the text its [String()] method prints before the
    final line feed, which for the nil response is [null]. *)
Definition example_collaborators : Collaborators := {|
  DateTime := strfmt.DateTime;
  DateTime_String := strfmt.DateTime_String;
  Any := string;
  DetailedResponse := string;
  DetailedResponse_String :=
    λ response, default "null" response +:+ String "010"%char "";
  flex_IntValue := λ p, default 0 p;
  flex_DateTimeToString := λ p, default "" (strfmt.DateTime_String <$> p);
  flex_Flatten := λ m, m
|}.

Section Examples.
Local Existing Instance example_collaborators.

Definition example_getClientWithInstanceEndpoint
    : SecretsManagerV2 → ResourceData → SecretsManagerV2 :=
  λ client _, client.

(** The resource data of a data source configured with [id = "secret-123"]. *)
Definition example_d (ds : data_source) : ResourceData :=
  Build_ResourceData (Resource_Schema (DataSource_Resource ds)) ""
    {[ "id" := AScalar (SString "secret-123") ]}.


(** A client of a service that answers every request alike, and its
    session. *)
Definition example_client
    (answer : SecretMetadataIntf * option DetailedResponse * option string)
    : SecretsManagerV2 :=
  Build_SecretsManagerV2 (λ _, answer)
    (λ _, "getSecretMetadataOptions failed validation").

Definition example_session
    (answer : SecretMetadataIntf * option DetailedResponse * option string)
    : ClientSession :=
  Build_ClientSession (inr (example_client answer)).


(** A private certificate named [secret-123]; the other fields are nil
    unless given. *)
Definition example_certificate (state versions_total : option Z)
    (labels : option (list string)) (rotation : option RotationPolicyIntf)
    (validity : option CertificateValidity.t) : PrivateCertificateMetadata.t :=
  {| PrivateCertificateMetadata.ID := Some "secret-123";
     PrivateCertificateMetadata.CreatedBy := Some "iam-ServiceId-1";
     PrivateCertificateMetadata.CreatedAt := None;
     PrivateCertificateMetadata.Crn := None;
     PrivateCertificateMetadata.CustomMetadata := None;
     PrivateCertificateMetadata.Description := None;
     PrivateCertificateMetadata.Downloaded := Some true;
     PrivateCertificateMetadata.Labels := labels;
     PrivateCertificateMetadata.LocksTotal := None;
     PrivateCertificateMetadata.Name := Some "my-certificate";
     PrivateCertificateMetadata.SecretGroupID := None;
     PrivateCertificateMetadata.SecretType := Some "private_cert";
     PrivateCertificateMetadata.State := state;
     PrivateCertificateMetadata.StateDescription := None;
     PrivateCertificateMetadata.UpdatedAt := None;
     PrivateCertificateMetadata.VersionsTotal := versions_total;
     PrivateCertificateMetadata.SigningAlgorithm := None;
     PrivateCertificateMetadata.AltNames := None;
     PrivateCertificateMetadata.CertificateAuthority := None;
     PrivateCertificateMetadata.CertificateTemplate := None;
     PrivateCertificateMetadata.CommonName := None;
     PrivateCertificateMetadata.ExpirationDate := None;
     PrivateCertificateMetadata.Issuer := None;
     PrivateCertificateMetadata.KeyAlgorithm := None;
     PrivateCertificateMetadata.NextRotationDate := None;
     PrivateCertificateMetadata.Rotation := rotation;
     PrivateCertificateMetadata.SerialNumber := None;
     PrivateCertificateMetadata.Validity := validity;
     PrivateCertificateMetadata.RevocationTimeSeconds := None;
     PrivateCertificateMetadata.RevocationTimeRfc3339 := None |}.

(** The first instant of a year, in UTC. *)
Definition example_new_year (year : N) : strfmt.DateTime :=
  strfmt.Build_DateTime year 1 1 0 0 0 0.

(** The window from 2023-01-01T00:00:00Z to 2024-01-01T00:00:00Z. *)
Definition example_window : CertificateValidity.t :=
  CertificateValidity.Build (Some (example_new_year 2023))
                            (Some (example_new_year 2024)).

Definition example_policy : RotationPolicyIntf :=
  RotationPolicyPtr
    (RotationPolicy.Build (Some true) (Some 30) (Some "day") (Some false)).

(** A successful fetch of [m]. *)
Definition example_answer (m : PrivateCertificateMetadata.t)
    : SecretMetadataIntf * option DetailedResponse * option string :=
  (PrivateCertificateMetadataPtr m, None, None).

(** One invocation of the private-certificate read, the fetch answering
    with [m]. *)
Definition example_read (m : PrivateCertificateMetadata.t)
    : Flow Empty_set * Run :=
  invoke (Read example_getClientWithInstanceEndpoint PrivateCertificate)
    (example_d PrivateCertificate)
    (example_session (example_answer m)).

(** A certificate in state 1 with two versions, a rotation policy and a
    validity window. *)
Definition example_rotating : PrivateCertificateMetadata.t :=
  example_certificate (Some 1) (Some 2) None
    (Some example_policy) (Some example_window).

(** A certificate with labels, and with neither state nor rotation
    policy. *)
Definition example_labelled : PrivateCertificateMetadata.t :=
  example_certificate None None (Some ["prod"]) None None.

(** The same certificate without rotation policy and window. *)
Definition example_plain : PrivateCertificateMetadata.t :=
  example_certificate (Some 1) (Some 2) None None None.

(** A certificate whose rotation policy is of a shape the mappers do not
    know. *)
Definition example_unknown_policy : PrivateCertificateMetadata.t :=
  example_certificate (Some 1) (Some 2) None
    (Some (OtherRotationPolicy "*secretsmanagerv2.FutureRotationPolicy")) None.

(** A fetch the service rejects. *)
Definition example_not_found
    : SecretMetadataIntf * option DetailedResponse * option string :=
  (NilSecretMetadata, Some "404 Not Found", Some "secret not found").

(** A fetch answered with a secret of another type. *)
Definition example_other_type
    : SecretMetadataIntf * option DetailedResponse * option string :=
  (OtherSecretMetadata "*secretsmanagerv2.ArbitrarySecretMetadata", None, None).

End Examples.

(** ** Where a run of writes stops *)

(** The error [d.Set(key, v)] returns on [d], if any. *)
Definition Set_error (key : string) (v : value) (d : ResourceData) : string :=
  default "" (ResourceData_Set key v d).1.

(** [result] is the outcome of making [writes] in order on [d0] under the
    schema map [sch]: the writes are made up to the first one the schema
    rejects; with none rejected there are no diagnostics, otherwise there is
    one error diagnostic, which names the rejected attribute. *)
Definition stops_at (sch : list (string * Schema))
    (writes : list (string * option attr)) (d0 : ResourceData)
    (calls : list GetSecretMetadataOptions)
    (result : Flow Empty_set * Run) : Prop :=
  ∃ made rest diags,
    writes = (made ++ rest)%list
    ∧ result = (Return diags, Build_Run (apply_writes made d0) calls)
    ∧ Forall (λ w, accepted sch w.1 w.2 = true) made
    ∧ match rest with
      | [] => diags = []
      | w :: _ =>
          accepted sch w.1 w.2 = false
          ∧ ∃ tail,
              diags = [Build_Diagnostic Error
                         ("Error setting " +:+ w.1 +:+ tail)]
      end.

(** ** The fields the two secret types share *)

Section Shared.
Context {collaborators : Collaborators}.

(** The username/password secret that has the shared fields of a private
    certificate. *)
Definition UsernamePassword_view (m : PrivateCertificateMetadata.t)
    : UsernamePasswordSecretMetadata.t :=
  {| UsernamePasswordSecretMetadata.ID := PrivateCertificateMetadata.ID m;
     UsernamePasswordSecretMetadata.CreatedBy :=
       PrivateCertificateMetadata.CreatedBy m;
     UsernamePasswordSecretMetadata.CreatedAt :=
       PrivateCertificateMetadata.CreatedAt m;
     UsernamePasswordSecretMetadata.Crn := PrivateCertificateMetadata.Crn m;
     UsernamePasswordSecretMetadata.CustomMetadata :=
       PrivateCertificateMetadata.CustomMetadata m;
     UsernamePasswordSecretMetadata.Description :=
       PrivateCertificateMetadata.Description m;
     UsernamePasswordSecretMetadata.Downloaded :=
       PrivateCertificateMetadata.Downloaded m;
     UsernamePasswordSecretMetadata.Labels :=
       PrivateCertificateMetadata.Labels m;
     UsernamePasswordSecretMetadata.LocksTotal :=
       PrivateCertificateMetadata.LocksTotal m;
     UsernamePasswordSecretMetadata.Name := PrivateCertificateMetadata.Name m;
     UsernamePasswordSecretMetadata.SecretGroupID :=
       PrivateCertificateMetadata.SecretGroupID m;
     UsernamePasswordSecretMetadata.SecretType :=
       PrivateCertificateMetadata.SecretType m;
     UsernamePasswordSecretMetadata.State :=
       PrivateCertificateMetadata.State m;
     UsernamePasswordSecretMetadata.StateDescription :=
       PrivateCertificateMetadata.StateDescription m;
     UsernamePasswordSecretMetadata.UpdatedAt :=
       PrivateCertificateMetadata.UpdatedAt m;
     UsernamePasswordSecretMetadata.VersionsTotal :=
       PrivateCertificateMetadata.VersionsTotal m;
     UsernamePasswordSecretMetadata.Rotation :=
       PrivateCertificateMetadata.Rotation m;
     UsernamePasswordSecretMetadata.ExpirationDate :=
       PrivateCertificateMetadata.ExpirationDate m;
     UsernamePasswordSecretMetadata.NextRotationDate :=
       PrivateCertificateMetadata.NextRotationDate m |}.

End Shared.

(** ** Further examples *)

Section Further_examples.
Local Existing Instance example_collaborators.

(** A custom metadata map of two entries. *)
Definition example_custom_metadata : gmap string string :=
  {[ "env" := "prod"; "team" := "payments" ]}.

(** A successful fetch of the username/password secret that shares the
    fields of the example certificate. *)
Definition example_password_answer
    : SecretMetadataIntf * option DetailedResponse * option string :=
  (UsernamePasswordSecretMetadataPtr (UsernamePassword_view example_rotating),
   None, None).

(** The example certificate as the service would return it under the
    ID [secret-456]. *)
Definition example_renamed : PrivateCertificateMetadata.t :=
  let m := example_rotating in
  {| PrivateCertificateMetadata.ID := Some "secret-456";
     PrivateCertificateMetadata.CreatedBy :=
       PrivateCertificateMetadata.CreatedBy m;
     PrivateCertificateMetadata.CreatedAt :=
       PrivateCertificateMetadata.CreatedAt m;
     PrivateCertificateMetadata.Crn := PrivateCertificateMetadata.Crn m;
     PrivateCertificateMetadata.CustomMetadata :=
       PrivateCertificateMetadata.CustomMetadata m;
     PrivateCertificateMetadata.Description :=
       PrivateCertificateMetadata.Description m;
     PrivateCertificateMetadata.Downloaded :=
       PrivateCertificateMetadata.Downloaded m;
     PrivateCertificateMetadata.Labels := PrivateCertificateMetadata.Labels m;
     PrivateCertificateMetadata.LocksTotal :=
       PrivateCertificateMetadata.LocksTotal m;
     PrivateCertificateMetadata.Name := PrivateCertificateMetadata.Name m;
     PrivateCertificateMetadata.SecretGroupID :=
       PrivateCertificateMetadata.SecretGroupID m;
     PrivateCertificateMetadata.SecretType :=
       PrivateCertificateMetadata.SecretType m;
     PrivateCertificateMetadata.State := PrivateCertificateMetadata.State m;
     PrivateCertificateMetadata.StateDescription :=
       PrivateCertificateMetadata.StateDescription m;
     PrivateCertificateMetadata.UpdatedAt :=
       PrivateCertificateMetadata.UpdatedAt m;
     PrivateCertificateMetadata.VersionsTotal :=
       PrivateCertificateMetadata.VersionsTotal m;
     PrivateCertificateMetadata.SigningAlgorithm :=
       PrivateCertificateMetadata.SigningAlgorithm m;
     PrivateCertificateMetadata.AltNames :=
       PrivateCertificateMetadata.AltNames m;
     PrivateCertificateMetadata.CertificateAuthority :=
       PrivateCertificateMetadata.CertificateAuthority m;
     PrivateCertificateMetadata.CertificateTemplate :=
       PrivateCertificateMetadata.CertificateTemplate m;
     PrivateCertificateMetadata.CommonName :=
       PrivateCertificateMetadata.CommonName m;
     PrivateCertificateMetadata.ExpirationDate :=
       PrivateCertificateMetadata.ExpirationDate m;
     PrivateCertificateMetadata.Issuer := PrivateCertificateMetadata.Issuer m;
     PrivateCertificateMetadata.KeyAlgorithm :=
       PrivateCertificateMetadata.KeyAlgorithm m;
     PrivateCertificateMetadata.NextRotationDate :=
       PrivateCertificateMetadata.NextRotationDate m;
     PrivateCertificateMetadata.Rotation :=
       PrivateCertificateMetadata.Rotation m;
     PrivateCertificateMetadata.SerialNumber :=
       PrivateCertificateMetadata.SerialNumber m;
     PrivateCertificateMetadata.Validity :=
       PrivateCertificateMetadata.Validity m;
     PrivateCertificateMetadata.RevocationTimeSeconds :=
       PrivateCertificateMetadata.RevocationTimeSeconds m;
     PrivateCertificateMetadata.RevocationTimeRfc3339 :=
       PrivateCertificateMetadata.RevocationTimeRfc3339 m |}.

(** The record the mappers return for the example rotation policy. *)
Definition example_policy_map : gmap string scalar :=
  {[ "auto_rotate" := SBool true; "interval" := SInt 30;
     "unit" := SString "day"; "rotate_keys" := SBool false ]}.

End Further_examples.

(** * Properties

    Everything above is definitions; the lemmas and theorems follow. *)

(** ** The mappers *)

Lemma lookup_assign_if_non_nil {A : Type} key (box : A → scalar) field
    (modelMap : gmap string scalar) k :
  assign_if_non_nil key box field modelMap !! k
  = if decide (key = k)
    then match field with Some v => Some (box v) | None => modelMap !! k end
    else modelMap !! k.
Proof.
  unfold assign_if_non_nil. destruct field as [v|].
  - rewrite lookup_insert. by destruct (decide (key = k)).
  - by destruct (decide (key = k)).
Qed.

Lemma dom_assign_if_non_nil {A : Type} key (box : A → scalar) field
    (modelMap : gmap string scalar) (keys : gset string) :
  key ∈ keys → dom modelMap ⊆ keys →
  dom (assign_if_non_nil key box field modelMap) ⊆ keys.
Proof.
  intros Hkey Hdom. unfold assign_if_non_nil. destruct field; [|done].
  rewrite dom_insert_L. apply union_least; [|done].
  by apply singleton_subseteq_l.
Qed.

Ltac mapper_lookup :=
  repeat (rewrite lookup_assign_if_non_nil; simpl);
  rewrite ?lookup_empty; try done.

Ltac mapper_dom :=
  cbv zeta; repeat (apply dom_assign_if_non_nil; [set_solver|]);
  rewrite dom_empty_L; set_solver.

Lemma CommonRotationPolicyToMap_exact ds (model : CommonRotationPolicy.t) :
  ∃ modelMap,
    RotationPolicyToMap ds (CommonRotationPolicyPtr model) = (Some modelMap, None)
    ∧ holds_exactly modelMap
        [("auto_rotate", SBool <$> CommonRotationPolicy.AutoRotate model);
         ("interval", SInt <$> CommonRotationPolicy.Interval model);
         ("unit", SString <$> CommonRotationPolicy.Unit model)].
Proof.
  destruct ds; (eexists; split; [reflexivity|]); split.
  all: try (repeat constructor; simpl; mapper_lookup;
            by match goal with |- context [?f <$> ?o] => destruct o end).
  all: mapper_dom.
Qed.

Lemma PublicCertificateRotationPolicyToMap_exact ds
    (model : PublicCertificateRotationPolicy.t) :
  ∃ modelMap,
    RotationPolicyToMap ds (PublicCertificateRotationPolicyPtr model)
    = (Some modelMap, None)
    ∧ holds_exactly modelMap
        [("auto_rotate", SBool <$> PublicCertificateRotationPolicy.AutoRotate model);
         ("interval", SInt <$> PublicCertificateRotationPolicy.Interval model);
         ("unit", SString <$> PublicCertificateRotationPolicy.Unit model);
         ("rotate_keys", SBool <$> PublicCertificateRotationPolicy.RotateKeys model)].
Proof.
  destruct ds; (eexists; split; [reflexivity|]); split.
  all: try (repeat constructor; simpl; mapper_lookup;
            by match goal with |- context [?f <$> ?o] => destruct o end).
  all: mapper_dom.
Qed.

Lemma RotationPolicyPtrToMap_exact ds (model : RotationPolicy.t) :
  ∃ modelMap,
    RotationPolicyToMap ds (RotationPolicyPtr model) = (Some modelMap, None)
    ∧ holds_exactly modelMap
        [("auto_rotate", SBool <$> RotationPolicy.AutoRotate model);
         ("interval", SInt <$> RotationPolicy.Interval model);
         ("unit", SString <$> RotationPolicy.Unit model);
         ("rotate_keys", SBool <$> RotationPolicy.RotateKeys model)].
Proof.
  destruct ds; (eexists; split; [reflexivity|]); split.
  all: try (repeat constructor; simpl; mapper_lookup;
            by match goal with |- context [?f <$> ?o] => destruct o end).
  all: mapper_dom.
Qed.

(** ** Execution lemmas *)

Lemma range_copy_id {V : Type} (m : gmap string V) : range_copy m = m.
Proof.
  unfold range_copy.
  induction m as [|k v m Hk Hfirst IH] using map_first_key_ind.
  - apply map_fold_empty.
  - rewrite map_fold_insert_first_key by done. by rewrite IH.
Qed.

Lemma ResourceData_Set_accepted key v d :
  accepted (rd_schema d) key (indirect v) = true →
  ResourceData_Set key v d = (None, store key (indirect v) d).
Proof.
  unfold accepted, ResourceData_Set.
  destruct (schema_of (rd_schema d) key) as [s|]; [|done].
  destruct (indirect v) as [a|]; [|done].
  by intros ->.
Qed.

Lemma ResourceData_Set_rejected key v d :
  accepted (rd_schema d) key (indirect v) = false →
  ∃ err, ResourceData_Set key v d = (Some err, d).
Proof.
  unfold accepted, ResourceData_Set.
  destruct (schema_of (rd_schema d) key) as [s|]; [|by eexists].
  destruct (indirect v) as [a|]; [|done].
  intros ->. by eexists.
Qed.

Section Exec_lemmas.
Context {A B : Type} (k : A → Exec B) (r : Run).

Lemma bind_next a : bind (next a) k r = k a r.
Proof. reflexivity. Qed.

Lemma bind_return diags : bind (return_ diags) k r = (Return diags, r).
Proof. reflexivity. Qed.

Lemma bind_panic reason : bind (panic reason) k r = (Panic reason, r).
Proof. reflexivity. Qed.

Lemma bind_bind {C : Type} (m : Exec C) (f : C → Exec A) :
  bind (bind m f) k r = bind m (λ c, bind (f c) k) r.
Proof. unfold bind. by destruct (m r) as [[]]. Qed.

End Exec_lemmas.

Lemma bind_if_err_None {B : Type} body (k : unit → Exec B) r :
  bind (if_err None body) k r = k tt r.
Proof. reflexivity. Qed.

Lemma bind_if_err_Some {B : Type} err diags (k : unit → Exec B) r :
  bind (if_err (Some err) (λ err, return_ (diags err))) k r
  = (Return (diags err), r).
Proof. reflexivity. Qed.

Lemma bind_get_d {B : Type} (k : ResourceData → Exec B) r :
  bind get_d k r = k (run_d r) r.
Proof. reflexivity. Qed.

Lemma bind_d_Get {B : Type} key (k : option attr → Exec B) r :
  bind (d_Get key) k r = k (ResourceData_Get key (run_d r)) r.
Proof. reflexivity. Qed.

Lemma bind_d_SetId {B : Type} v (k : unit → Exec B) r :
  bind (d_SetId v) k r
  = k tt (Build_Run (ResourceData_SetId v (run_d r)) (run_calls r)).
Proof. reflexivity. Qed.

(** A checked write of an accepted value: the statement
    [if err = d.Set(key, v); err != nil { return ... }] stores the value and
    falls through. *)
Lemma bind_d_Set_checked {B : Type} key v diags (k : unit → Exec B) r :
  accepted (rd_schema (run_d r)) key (indirect v) = true →
  bind (d_Set key v)
       (λ err, bind (if_err err (λ err, return_ (diags err))) k) r
  = k tt (Build_Run (store key (indirect v) (run_d r)) (run_calls r)).
Proof.
  intros Hok. unfold bind at 1, d_Set.
  by rewrite (ResourceData_Set_accepted _ _ _ Hok).
Qed.

Lemma rd_schema_apply_writes writes d :
  rd_schema (apply_writes writes d) = rd_schema d.
Proof.
  revert d. induction writes as [|w writes IH]; intros d; [done|].
  simpl. by rewrite IH.
Qed.

Lemma rd_Id_apply_writes writes d :
  rd_Id (apply_writes writes d) = rd_Id d.
Proof.
  revert d. induction writes as [|w writes IH]; intros d; [done|].
  simpl. by rewrite IH.
Qed.

Lemma lookup_store key a d key' :
  rd_attrs (store key a d) !! key'
  = match schema_of (rd_schema d) key with
    | Some s => if decide (key = key') then Some (stored s a)
                else rd_attrs d !! key'
    | None => rd_attrs d !! key'
    end.
Proof.
  cbn [store rd_attrs].
  destruct (schema_of (rd_schema d) key) as [s|]; [|done].
  rewrite lookup_insert. by destruct (decide (key = key')).
Qed.

(** After a run of writes an attribute holds what the latest write to it
    stored, and what it held before when no write names it. *)
Lemma lookup_apply_writes writes d key :
  rd_attrs (apply_writes writes d) !! key
  = match written writes key, schema_of (rd_schema d) key with
    | Some a, Some s => Some (stored s a)
    | _, _ => rd_attrs d !! key
    end.
Proof.
  revert d. induction writes as [|w writes IH]; intros d; [done|].
  simpl. rewrite IH, lookup_store. cbn [rd_schema store].
  destruct (written writes key) as [a|].
  - destruct (schema_of (rd_schema d) key) as [s|] eqn:Hkey; [done|].
    destruct (schema_of (rd_schema d) w.1) as [s|] eqn:Hw; [|done].
    destruct (decide (w.1 = key)) as [Heq|]; [|done].
    rewrite Heq in Hw. congruence.
  - destruct (decide (w.1 = key)) as [Heq|].
    + rewrite Heq. by destruct (schema_of (rd_schema d) key).
    + destruct (schema_of (rd_schema d) w.1);
        by destruct (schema_of (rd_schema d) key).
Qed.

Lemma apply_writes_app ws1 ws2 d :
  apply_writes (ws1 ++ ws2) d = apply_writes ws2 (apply_writes ws1 d).
Proof. apply fold_left_app. Qed.

(** ** Runs of the read functions *)

Lemma rd_schema_store key a d : rd_schema (store key a d) = rd_schema d.
Proof. reflexivity. Qed.

Lemma rd_schema_SetId v d : rd_schema (ResourceData_SetId v d) = rd_schema d.
Proof. reflexivity. Qed.

Lemma accepted_AMap fields key (m m' : gmap string string) :
  accepted fields key (Some (AMap m)) = accepted fields key (Some (AMap m')).
Proof.
  unfold accepted. destruct (schema_of fields key) as [s|]; [|done].
  unfold conforms. by destruct (Type_ s).
Qed.

(** Every recognized rotation policy maps to a record the nested
    [rotation] schema of either data source accepts. *)
Lemma rotation_accepted ds fields o :
  schema_of fields "rotation"
  = schema_of (Resource_Schema (DataSource_Resource ds)) "rotation" →
  (∀ model, o = Some model → recognized model = true) →
  accepted fields "rotation" (Some (AList (rotation_list ds o))) = true.
Proof.
  intros Hs Hrec. unfold accepted. rewrite Hs.
  destruct o as [model|]; [|by destruct ds].
  specialize (Hrec model eq_refl).
  destruct ds, model as [[[?|] [?|] [?|]] |[[?|] [?|] [?|] [?|]]
                        |[[?|] [?|] [?|] [?|]] |]; try done;
    vm_compute; reflexivity.
Qed.

Lemma recognized_no_error ds model :
  recognized model = true → (RotationPolicyToMap ds model).2 = None.
Proof. by destruct ds, model. Qed.

Lemma unrecognized_error ds model :
  recognized model = false →
  RotationPolicyToMap ds model = (None, Some Unrecognized_subtype).
Proof. by destruct ds, model. Qed.

(** The block
    [xs := []map[string]interface{}{}; if field != nil { modelMap, err :=
    f(field); if err != nil { return diag.FromErr(err) }; xs = append(xs,
    modelMap) }], when the mapper does not fail. *)
Lemma bind_mapped_block {X B : Type} (f : X → map_result) (o : option X)
    (k : list (gmap string scalar) → Exec B) r :
  (∀ x, o = Some x → (f x).2 = None) →
  bind match o with
       | Some model =>
           let '(modelMap, err) := f model in
           bind (if_err err (λ err, return_ (diag_FromErr err)))
                (λ _, next ([] ++ [default ∅ modelMap])%list)
       | None => next []
       end k r
  = k match o with Some model => [default ∅ (f model).1] | None => [] end r.
Proof.
  intros Hok. destruct o as [x|]; [|done].
  specialize (Hok x eq_refl). destruct (f x) as [modelMap err].
  simpl in Hok. by subst err.
Qed.

Lemma bind_mapped_block_failed {X B : Type} (f : X → map_result) (x : X) err
    (k : list (gmap string scalar) → Exec B) r :
  (f x).2 = Some err →
  bind (let '(modelMap, err) := f x in
        bind (if_err err (λ err, return_ (diag_FromErr err)))
             (λ _, next ([] ++ [default ∅ modelMap])%list)) k r
  = (Return (diag_FromErr err), r).
Proof.
  intros Herr. destruct (f x) as [modelMap err']. simpl in Herr. by subst err'.
Qed.

Section Runs.
Context {collaborators : Collaborators}.
Variable getClientWithInstanceEndpoint :
  SecretsManagerV2 → ResourceData → SecretsManagerV2.

Lemma validity_accepted fields o :
  schema_of fields "validity"
  = schema_of (Resource_Schema DataSourceIbmSmPrivateCertificateMetadata)
      "validity" →
  accepted fields "validity" (Some (AList (validity_list o))) = true.
Proof.
  intros Hs. unfold accepted. rewrite Hs.
  destruct o as [[[?|] [?|]]|]; vm_compute; reflexivity.
Qed.

Lemma bind_GetSecretMetadataWithContext {B : Type} client options
    (k : _ → Exec B) r :
  bind (GetSecretMetadataWithContext client options) k r
  = k (GetSecretMetadata client options)
      (Build_Run (run_d r) (sent options ++ run_calls r)).
Proof. reflexivity. Qed.

(** A call that did not fail has sent its request. *)
Lemma sent_success (client : SecretsManagerV2) options intf response :
  GetSecretMetadata client options = (intf, response, None) →
  sent options = [options].
Proof.
  unfold GetSecretMetadata, sent.
  by destruct (valid_options options).
Qed.

(** A checked write of an accepted value: the statement
    [if err = d.Set(key, v); err != nil { return ... }] stores the value and
    falls through.  The state is kept as the list of writes made so far to
    the resource data the run started from. *)
Lemma bind_d_Set_write {B : Type} key v diags (k : unit → Exec B) ws d0 calls :
  accepted (rd_schema d0) key (indirect v) = true →
  bind (d_Set key v)
       (λ err, bind (if_err err (λ err, return_ (diags err))) k)
       (Build_Run (apply_writes ws d0) calls)
  = k tt (Build_Run (apply_writes (ws ++ [(key, indirect v)]) d0) calls).
Proof.
  intros Hok. rewrite bind_d_Set_checked
    by (cbn [run_d]; by rewrite rd_schema_apply_writes).
  cbn [run_d run_calls]. by rewrite apply_writes_app.
Qed.

(** The custom-metadata block: a copy of the map is flattened and stored,
    or nothing happens for a nil map. *)
Lemma bind_custom_metadata_block {B : Type} (o : option (gmap string Any))
    diags1 diags2 (k : unit → Exec B) ws d0 calls :
  accepted (rd_schema d0) "custom_metadata" (Some (AMap ∅)) = true →
  bind match o with
       | Some customMetadata =>
           bind (d_Set "custom_metadata"
                   (MapOfString (flex_Flatten (range_copy customMetadata))))
                (λ err,
                   bind (if_err err (λ err, return_ (diags1 err)))
                        (λ _, if_err err (λ err, return_ (diags2 err))))
       | None => next tt
       end k (Build_Run (apply_writes ws d0) calls)
  = k tt (Build_Run
            (apply_writes
               (ws ++ match o with
                      | Some customMetadata =>
                          [("custom_metadata",
                            Some (AMap (flex_Flatten customMetadata)))]
                      | None => []
                      end) d0)
            calls).
Proof.
  intros Hok. destruct o as [customMetadata|].
  - rewrite range_copy_id. unfold bind, d_Set. cbn [run_d run_calls].
    rewrite ResourceData_Set_accepted.
    + cbn [if_err next]. by rewrite apply_writes_app.
    + rewrite rd_schema_apply_writes. simpl indirect.
      by rewrite (accepted_AMap _ _ _ ∅).
  - rewrite bind_next. by rewrite app_nil_r.
Qed.

Ltac solve_accepted Hsch :=
  rewrite Hsch;
  try match goal with |- context [Ptr (_ <$> ?o)] => destruct o end;
  vm_compute; reflexivity.

Ltac exec_writes Hsch :=
  repeat (rewrite bind_d_Set_write by solve_accepted Hsch; cbv beta).

(** The statements up to the remote call. *)
Ltac exec_prologue Hsess Hget :=
  rewrite Hsess, bind_get_d; cbv zeta;
  rewrite bind_d_Get; cbn [run_d]; rewrite Hget; cbn [assert_string];
  rewrite bind_next; unfold SetID;
  rewrite bind_GetSecretMetadataWithContext; cbn [run_d run_calls];
  rewrite app_nil_r.

(** From the dereference of [ID] to the rotation block. *)
Ltac exec_to_rotation HID Hsch Hsch0 :=
  rewrite bind_if_err_None;
  cbn [assert_PrivateCertificateMetadata
       assert_UsernamePasswordSecretMetadata];
  rewrite bind_next, HID; cbn [deref];
  rewrite bind_next, bind_d_SetId; cbn [run_d run_calls];
  lazymatch goal with
  | |- context [ResourceData_SetId ?id ?d] =>
      pose proof Hsch as Hsch0;
      change (rd_schema d) with (rd_schema (ResourceData_SetId id d)) in Hsch0;
      generalize dependent (ResourceData_SetId id d)
  end;
  intros d0 Hsch0;
  change d0 with (apply_writes [] d0) at 1;
  exec_writes Hsch0;
  rewrite bind_custom_metadata_block by solve_accepted Hsch0;
  exec_writes Hsch0.

Lemma ResourceData_Get_id ds d :
  rd_schema d = Resource_Schema (DataSource_Resource ds) →
  ResourceData_Get "id" d = Some (AScalar (SString (requested_id d))).
Proof.
  intros Hsch. unfold requested_id, ResourceData_Get. rewrite Hsch.
  assert (∃ s, schema_of (Resource_Schema (DataSource_Resource ds)) "id"
               = Some s ∧ Type_ s = TypeString) as (s & -> & Hs)
    by (destruct ds; eexists; split; vm_compute; reflexivity).
  destruct (rd_attrs d !! "id") as [a|].
  - destruct (conforms s a) eqn:Hc.
    + unfold conforms in Hc. rewrite Hs in Hc.
      by destruct a as [[]| | |].
    + unfold zero_value. by rewrite Hs.
  - unfold zero_value. by rewrite Hs.
Qed.

Lemma PrivateCertificate_read_run meta client d m response id :
  ClientSession_SecretsManagerV2 meta = inr client →
  rd_schema d = Resource_Schema DataSourceIbmSmPrivateCertificateMetadata →
  GetSecretMetadata (getClientWithInstanceEndpoint client d) (request_of d)
  = (PrivateCertificateMetadataPtr m, response, None) →
  PrivateCertificateMetadata.ID m = Some id →
  (∀ model, PrivateCertificateMetadata.Rotation m = Some model →
            recognized model = true) →
  invoke (dataSourceIbmSmPrivateCertificateMetadataRead
            getClientWithInstanceEndpoint) d meta
  = (Return [],
     Build_Run (apply_writes (PrivateCertificate_writes m)
                  (ResourceData_SetId id d))
               [request_of d]).
Proof.
  intros Hsess Hsch Hfetch HID Hrec.
  pose proof (ResourceData_Get_id PrivateCertificate d Hsch) as Hget.
  unfold invoke, dataSourceIbmSmPrivateCertificateMetadataRead.
  exec_prologue Hsess Hget. fold (request_of d).
  rewrite (sent_success _ _ _ _ Hfetch), Hfetch; cbv beta iota.
  exec_to_rotation HID Hsch Hsch0.
  rewrite bind_mapped_block
    by (intros model Hm; by apply (recognized_no_error PrivateCertificate), Hrec).
  rewrite bind_d_Set_write
    by (apply (rotation_accepted PrivateCertificate);
        [by rewrite Hsch0|exact Hrec]).
  cbv beta. exec_writes Hsch0.
  rewrite bind_mapped_block by (by intros [??] _).
  rewrite bind_d_Set_write by (apply validity_accepted; by rewrite Hsch0).
  cbv beta. exec_writes Hsch0.
  unfold return_. do 3 f_equal.
  unfold PrivateCertificate_writes, PrivateCertificate_writes_before_rotation,
    PrivateCertificate_writes_after_rotation.
  by destruct (PrivateCertificateMetadata.CustomMetadata m).
Qed.

Lemma PrivateCertificate_read_unrecognized meta client d m response id model :
  ClientSession_SecretsManagerV2 meta = inr client →
  rd_schema d = Resource_Schema DataSourceIbmSmPrivateCertificateMetadata →
  GetSecretMetadata (getClientWithInstanceEndpoint client d) (request_of d)
  = (PrivateCertificateMetadataPtr m, response, None) →
  PrivateCertificateMetadata.ID m = Some id →
  PrivateCertificateMetadata.Rotation m = Some model →
  recognized model = false →
  invoke (dataSourceIbmSmPrivateCertificateMetadataRead
            getClientWithInstanceEndpoint) d meta
  = (Return (diag_FromErr Unrecognized_subtype),
     Build_Run (apply_writes (PrivateCertificate_writes_before_rotation m)
                  (ResourceData_SetId id d))
               [request_of d]).
Proof.
  intros Hsess Hsch Hfetch HID Hrot Hrec.
  pose proof (ResourceData_Get_id PrivateCertificate d Hsch) as Hget.
  unfold invoke, dataSourceIbmSmPrivateCertificateMetadataRead.
  exec_prologue Hsess Hget. fold (request_of d).
  rewrite (sent_success _ _ _ _ Hfetch), Hfetch; cbv beta iota.
  exec_to_rotation HID Hsch Hsch0.
  rewrite Hrot.
  rewrite (bind_mapped_block_failed _ _ Unrecognized_subtype)
    by (by rewrite (unrecognized_error PrivateCertificate)).
  do 2 f_equal.
  unfold PrivateCertificate_writes_before_rotation.
  by destruct (PrivateCertificateMetadata.CustomMetadata m).
Qed.

Lemma UsernamePassword_read_run meta client d m response id :
  ClientSession_SecretsManagerV2 meta = inr client →
  rd_schema d = Resource_Schema DataSourceIbmSmUsernamePasswordSecretMetadata →
  GetSecretMetadata (getClientWithInstanceEndpoint client d) (request_of d)
  = (UsernamePasswordSecretMetadataPtr m, response, None) →
  UsernamePasswordSecretMetadata.ID m = Some id →
  (∀ model, UsernamePasswordSecretMetadata.Rotation m = Some model →
            recognized model = true) →
  invoke (dataSourceIbmSmUsernamePasswordSecretMetadataRead
            getClientWithInstanceEndpoint) d meta
  = (Return [],
     Build_Run (apply_writes (UsernamePassword_writes m)
                  (ResourceData_SetId id d))
               [request_of d]).
Proof.
  intros Hsess Hsch Hfetch HID Hrec.
  pose proof (ResourceData_Get_id UsernamePassword d Hsch) as Hget.
  unfold invoke, dataSourceIbmSmUsernamePasswordSecretMetadataRead.
  exec_prologue Hsess Hget. fold (request_of d).
  rewrite (sent_success _ _ _ _ Hfetch), Hfetch; cbv beta iota.
  exec_to_rotation HID Hsch Hsch0.
  rewrite bind_mapped_block
    by (intros model Hm; by apply (recognized_no_error UsernamePassword), Hrec).
  rewrite bind_d_Set_write
    by (apply (rotation_accepted UsernamePassword);
        [by rewrite Hsch0|exact Hrec]).
  cbv beta. exec_writes Hsch0.
  unfold return_. do 3 f_equal.
  unfold UsernamePassword_writes, UsernamePassword_writes_before_rotation,
    UsernamePassword_writes_after_rotation.
  by destruct (UsernamePasswordSecretMetadata.CustomMetadata m).
Qed.

Lemma UsernamePassword_read_unrecognized meta client d m response id model :
  ClientSession_SecretsManagerV2 meta = inr client →
  rd_schema d = Resource_Schema DataSourceIbmSmUsernamePasswordSecretMetadata →
  GetSecretMetadata (getClientWithInstanceEndpoint client d) (request_of d)
  = (UsernamePasswordSecretMetadataPtr m, response, None) →
  UsernamePasswordSecretMetadata.ID m = Some id →
  UsernamePasswordSecretMetadata.Rotation m = Some model →
  recognized model = false →
  invoke (dataSourceIbmSmUsernamePasswordSecretMetadataRead
            getClientWithInstanceEndpoint) d meta
  = (Return (diag_FromErr Unrecognized_subtype),
     Build_Run (apply_writes (UsernamePassword_writes_before_rotation m)
                  (ResourceData_SetId id d))
               [request_of d]).
Proof.
  intros Hsess Hsch Hfetch HID Hrot Hrec.
  pose proof (ResourceData_Get_id UsernamePassword d Hsch) as Hget.
  unfold invoke, dataSourceIbmSmUsernamePasswordSecretMetadataRead.
  exec_prologue Hsess Hget. fold (request_of d).
  rewrite (sent_success _ _ _ _ Hfetch), Hfetch; cbv beta iota.
  exec_to_rotation HID Hsch Hsch0.
  rewrite Hrot.
  rewrite (bind_mapped_block_failed _ _ Unrecognized_subtype)
    by (by rewrite (unrecognized_error UsernamePassword)).
  do 2 f_equal.
  unfold UsernamePassword_writes_before_rotation.
  by destruct (UsernamePasswordSecretMetadata.CustomMetadata m).
Qed.

Lemma Read_session_failed ds meta d err :
  ClientSession_SecretsManagerV2 meta = inl err →
  invoke (Read getClientWithInstanceEndpoint ds) d meta = (Return (diag_FromErr err), Build_Run d []).
Proof.
  intros Hsess.
  destruct ds; unfold invoke, Read,
    dataSourceIbmSmPrivateCertificateMetadataRead,
    dataSourceIbmSmUsernamePasswordSecretMetadataRead; by rewrite Hsess.
Qed.

Lemma Read_fetch_failed ds meta client d intf response err :
  ClientSession_SecretsManagerV2 meta = inr client →
  rd_schema d = Resource_Schema (DataSource_Resource ds) →
  GetSecretMetadata (getClientWithInstanceEndpoint client d) (request_of d)
  = (intf, response, Some err) →
  invoke (Read getClientWithInstanceEndpoint ds) d meta
  = (Return (diag_FromErr (fetch_failed_message err response)),
     Build_Run d (sent (request_of d))).
Proof.
  intros Hsess Hsch Hfetch.
  pose proof (ResourceData_Get_id ds d Hsch) as Hget.
  destruct ds; unfold invoke, Read,
    dataSourceIbmSmPrivateCertificateMetadataRead,
    dataSourceIbmSmUsernamePasswordSecretMetadataRead;
    exec_prologue Hsess Hget; fold (request_of d);
    rewrite Hfetch; cbv beta iota;
    rewrite bind_if_err_Some; reflexivity.
Qed.

Lemma Read_type_mismatch ds meta client d intf response :
  ClientSession_SecretsManagerV2 meta = inr client →
  rd_schema d = Resource_Schema (DataSource_Resource ds) →
  GetSecretMetadata (getClientWithInstanceEndpoint client d) (request_of d)
  = (intf, response, None) →
  expected_type ds intf = false →
  ∃ reason,
    invoke (Read getClientWithInstanceEndpoint ds) d meta = (Panic reason, Build_Run d [request_of d]).
Proof.
  intros Hsess Hsch Hfetch Htype.
  pose proof (ResourceData_Get_id ds d Hsch) as Hget.
  destruct ds; unfold invoke, Read,
    dataSourceIbmSmPrivateCertificateMetadataRead,
    dataSourceIbmSmUsernamePasswordSecretMetadataRead;
    exec_prologue Hsess Hget; fold (request_of d);
    rewrite (sent_success _ _ _ _ Hfetch), Hfetch; cbv beta iota;
    rewrite bind_if_err_None;
    destruct intf; try discriminate Htype;
    cbn [assert_PrivateCertificateMetadata
         assert_UsernamePasswordSecretMetadata];
    rewrite bind_panic; by eexists.
Qed.

Lemma Read_nil_ID ds meta client d intf response :
  ClientSession_SecretsManagerV2 meta = inr client →
  rd_schema d = Resource_Schema (DataSource_Resource ds) →
  GetSecretMetadata (getClientWithInstanceEndpoint client d) (request_of d)
  = (intf, response, None) →
  expected_type ds intf = true →
  metadata_ID intf = None →
  ∃ reason,
    invoke (Read getClientWithInstanceEndpoint ds) d meta = (Panic reason, Build_Run d [request_of d]).
Proof.
  intros Hsess Hsch Hfetch Htype HID.
  pose proof (ResourceData_Get_id ds d Hsch) as Hget.
  destruct ds, intf; try discriminate Htype; simpl in HID;
    unfold invoke, Read,
      dataSourceIbmSmPrivateCertificateMetadataRead,
      dataSourceIbmSmUsernamePasswordSecretMetadataRead;
    exec_prologue Hsess Hget; fold (request_of d);
    rewrite (sent_success _ _ _ _ Hfetch), Hfetch; cbv beta iota;
    rewrite bind_if_err_None;
    cbn [assert_PrivateCertificateMetadata
         assert_UsernamePasswordSecretMetadata];
    rewrite bind_next, HID; cbn [deref];
    rewrite bind_panic; by eexists.
Qed.

(** A fetched record of the expected type, with an ID and a rotation
    policy that is nil or of a known shape: every write succeeds. *)
Lemma Read_mapped ds meta client d intf response id :
  ClientSession_SecretsManagerV2 meta = inr client →
  rd_schema d = Resource_Schema (DataSource_Resource ds) →
  GetSecretMetadata (getClientWithInstanceEndpoint client d) (request_of d)
  = (intf, response, None) →
  expected_type ds intf = true →
  metadata_ID intf = Some id →
  (∀ model, metadata_Rotation intf = Some model → recognized model = true) →
  invoke (Read getClientWithInstanceEndpoint ds) d meta
  = (Return [],
     Build_Run (apply_writes (metadata_writes intf) (ResourceData_SetId id d))
               [request_of d]).
Proof.
  intros Hsess Hsch Hfetch Htype HID Hrec.
  destruct ds, intf; try discriminate Htype; simpl in *.
  - by eapply PrivateCertificate_read_run.
  - by eapply UsernamePassword_read_run.
Qed.

(** The same, with a rotation policy of an unknown shape: the read stops at
    the rotation block. *)
Lemma Read_unrecognized ds meta client d intf response id model :
  ClientSession_SecretsManagerV2 meta = inr client →
  rd_schema d = Resource_Schema (DataSource_Resource ds) →
  GetSecretMetadata (getClientWithInstanceEndpoint client d) (request_of d)
  = (intf, response, None) →
  expected_type ds intf = true →
  metadata_ID intf = Some id →
  metadata_Rotation intf = Some model →
  recognized model = false →
  invoke (Read getClientWithInstanceEndpoint ds) d meta
  = (Return (diag_FromErr Unrecognized_subtype),
     Build_Run (apply_writes (metadata_writes_before_rotation intf)
                  (ResourceData_SetId id d))
               [request_of d]).
Proof.
  intros Hsess Hsch Hfetch Htype HID Hrot Hrec.
  destruct ds, intf; try discriminate Htype; simpl in *.
  - by eapply PrivateCertificate_read_unrecognized.
  - by eapply UsernamePassword_read_unrecognized.
Qed.

End Runs.

Lemma written_elem writes w :
  NoDup writes.*1 → w ∈ writes → written writes w.1 = Some w.2.
Proof.
  induction writes as [|w' writes IH]; intros Hnd Hin.
  - by apply elem_of_nil in Hin.
  - rewrite fmap_cons in Hnd. apply NoDup_cons in Hnd as [Hfresh Hnd].
    apply elem_of_cons in Hin as [->|Hin]; simpl.
    + destruct (written writes w'.1) as [a|] eqn:Hw.
      * exfalso. apply Hfresh. clear -Hw.
        induction writes as [|w'' writes IH]; [done|]. simpl in Hw.
        destruct (written writes w'.1); [right; by apply IH|].
        destruct (decide (w''.1 = w'.1)) as [<-|]; [left|done].
      * by rewrite decide_True.
    + by rewrite IH.
Qed.

Lemma written_other writes key :
  key ∉ writes.*1 → written writes key = None.
Proof.
  induction writes as [|w writes IH]; [done|]. rewrite fmap_cons.
  intros Hnot. apply not_elem_of_cons in Hnot as [Hne Hnot]. simpl.
  rewrite IH by done. by rewrite decide_False.
Qed.

(** After a run of keyed writes, every declared attribute the list names
    once holds what the listed content is stored as, and every other
    attribute is untouched. *)
Lemma apply_writes_elem writes d w s :
  NoDup writes.*1 → w ∈ writes →
  schema_of (rd_schema d) w.1 = Some s →
  rd_attrs (apply_writes writes d) !! w.1 = Some (stored s w.2).
Proof.
  intros Hnd Hin Hs. rewrite lookup_apply_writes.
  by rewrite (written_elem _ _ Hnd Hin), Hs.
Qed.

Lemma apply_writes_other writes d key :
  key ∉ writes.*1 → rd_attrs (apply_writes writes d) !! key = rd_attrs d !! key.
Proof.
  intros Hnot. rewrite lookup_apply_writes. by rewrite written_other.
Qed.

Lemma stored_AList s fields l :
  Elem s = ElemResource fields →
  stored s (Some (AList l))
  = AList ((λ obj, obj ∪ zero_record fields) <$> l).
Proof. unfold stored. by intros ->. Qed.

Lemma lookup_SetId v d key :
  rd_attrs (ResourceData_SetId v d) !! key
  = if decide ("id" = key) then Some (AScalar (SString v))
    else rd_attrs d !! key.
Proof.
  cbn [ResourceData_SetId rd_attrs]. rewrite lookup_insert.
  by destruct (decide ("id" = key)).
Qed.

Lemma string_app_assoc (a b c : string) : (a +:+ b) +:+ c = a +:+ b +:+ c.
Proof.
  induction a as [|x a IH]; [done|].
  change (String x ((a +:+ b) +:+ c) = String x (a +:+ b +:+ c)).
  by rewrite IH.
Qed.

Section Data_sources.
Context {collaborators : Collaborators}.
Variable getClientWithInstanceEndpoint :
  SecretsManagerV2 → ResourceData → SecretsManagerV2.

Lemma metadata_writes_NoDup intf : NoDup (metadata_writes intf).*1.
Proof.
  destruct intf as [m|m| |]; simpl; try apply NoDup_nil_2.
  - unfold PrivateCertificate_writes,
      PrivateCertificate_writes_before_rotation,
      PrivateCertificate_writes_after_rotation.
    destruct (PrivateCertificateMetadata.CustomMetadata m);
      apply (bool_decide_unpack _); vm_compute; reflexivity.
  - unfold UsernamePassword_writes,
      UsernamePassword_writes_before_rotation,
      UsernamePassword_writes_after_rotation.
    destruct (UsernamePasswordSecretMetadata.CustomMetadata m);
      apply (bool_decide_unpack _); vm_compute; reflexivity.
Qed.

Lemma lookup_written_attr intf d key a s :
  (key, a) ∈ metadata_writes intf →
  schema_of (rd_schema d) key = Some s →
  rd_attrs (apply_writes (metadata_writes intf) d) !! key
  = Some (stored s a).
Proof.
  intros Hin Hs.
  exact (apply_writes_elem _ d (key, a) s (metadata_writes_NoDup intf) Hin Hs).
Qed.

Lemma lookup_written_as intf d key a s stored_a :
  (key, a) ∈ metadata_writes intf →
  schema_of (rd_schema d) key = Some s →
  stored s a = stored_a →
  rd_attrs (apply_writes (metadata_writes intf) d) !! key = Some stored_a.
Proof. intros Hin Hs <-. by apply lookup_written_attr. Qed.

(** Every attribute a read writes is declared by the schema of its data
    source. *)
Lemma metadata_writes_declared ds intf :
  expected_type ds intf = true →
  Forall (λ key, is_Some (schema_of (Resource_Schema (DataSource_Resource ds))
                            key))
    (metadata_writes intf).*1.
Proof.
  intros Htype.
  destruct ds, intf as [m|m| |]; try discriminate Htype; simpl.
  - unfold PrivateCertificate_writes,
      PrivateCertificate_writes_before_rotation,
      PrivateCertificate_writes_after_rotation.
    destruct (PrivateCertificateMetadata.CustomMetadata m);
      apply (bool_decide_unpack _); vm_compute; reflexivity.
  - unfold UsernamePassword_writes,
      UsernamePassword_writes_before_rotation,
      UsernamePassword_writes_after_rotation.
    destruct (UsernamePasswordSecretMetadata.CustomMetadata m);
      apply (bool_decide_unpack _); vm_compute; reflexivity.
Qed.

(** No read writes [id], [labels] or [alt_names] with [d.Set]. *)
Lemma untouched_not_written intf key :
  key ∈ ["id"; "labels"; "alt_names"] →
  (key ∉ (metadata_writes intf).*1)
  ∧ key ∉ (metadata_writes_before_rotation intf).*1.
Proof.
  intros Hkey.
  assert (key = "id" ∨ key = "labels" ∨ key = "alt_names") as Hcases.
  { rewrite !elem_of_cons, elem_of_nil in Hkey. tauto. }
  destruct intf as [m|m| |]; simpl;
    try (split; apply not_elem_of_nil).
  - unfold PrivateCertificate_writes,
      PrivateCertificate_writes_before_rotation,
      PrivateCertificate_writes_after_rotation.
    destruct (PrivateCertificateMetadata.CustomMetadata m);
      destruct Hcases as [->|[->| ->]];
      split; apply (bool_decide_unpack _); vm_compute; reflexivity.
  - unfold UsernamePassword_writes,
      UsernamePassword_writes_before_rotation,
      UsernamePassword_writes_after_rotation.
    destruct (UsernamePasswordSecretMetadata.CustomMetadata m);
      destruct Hcases as [->|[->| ->]];
      split; apply (bool_decide_unpack _); vm_compute; reflexivity.
Qed.


(** C2.  For each of the three known shapes, either mapper returns a map
    holding exactly the fields that are present on the policy; the shape
    without a rotate-keys field never yields [rotate_keys], the two others
    yield it exactly when the field is non-nil. *)
Theorem C2_rotation_policy_exact_fields ds :
  (∀ model : CommonRotationPolicy.t, ∃ modelMap,
     RotationPolicyToMap ds (CommonRotationPolicyPtr model)
     = (Some modelMap, None)
     ∧ holds_exactly modelMap
         [("auto_rotate", SBool <$> CommonRotationPolicy.AutoRotate model);
          ("interval", SInt <$> CommonRotationPolicy.Interval model);
          ("unit", SString <$> CommonRotationPolicy.Unit model)]
     ∧ modelMap !! "rotate_keys" = None)
  ∧ (∀ model : RotationPolicy.t, ∃ modelMap,
       RotationPolicyToMap ds (RotationPolicyPtr model) = (Some modelMap, None)
       ∧ holds_exactly modelMap
           [("auto_rotate", SBool <$> RotationPolicy.AutoRotate model);
            ("interval", SInt <$> RotationPolicy.Interval model);
            ("unit", SString <$> RotationPolicy.Unit model);
            ("rotate_keys", SBool <$> RotationPolicy.RotateKeys model)])
  ∧ (∀ model : PublicCertificateRotationPolicy.t, ∃ modelMap,
       RotationPolicyToMap ds (PublicCertificateRotationPolicyPtr model)
       = (Some modelMap, None)
       ∧ holds_exactly modelMap
           [("auto_rotate",
             SBool <$> PublicCertificateRotationPolicy.AutoRotate model);
            ("interval",
             SInt <$> PublicCertificateRotationPolicy.Interval model);
            ("unit", SString <$> PublicCertificateRotationPolicy.Unit model);
            ("rotate_keys",
             SBool <$> PublicCertificateRotationPolicy.RotateKeys model)]).
Proof.
  split; [|split]; intros model.
  - destruct (CommonRotationPolicyToMap_exact ds model)
      as (modelMap & Hmap & Hfields & Hdom).
    exists modelMap. repeat split; try done.
    apply not_elem_of_dom. intros Hin. apply Hdom in Hin.
    simpl in Hin. rewrite !elem_of_union, !elem_of_singleton in Hin.
    destruct Hin as [Hin|[Hin|[Hin|Hin]]];
      first [discriminate Hin|by apply elem_of_empty in Hin].
  - apply RotationPolicyPtrToMap_exact.
  - apply PublicCertificateRotationPolicyToMap_exact.
Qed.

(** C3.  A rotation policy of an unknown shape makes either mapper return
    the nil map and an error, and the read function of a record holding
    such a policy returns exactly that error. *)
Theorem C3_unrecognized_rotation_policy
    ds dynamic_type meta client d intf response id :
  RotationPolicyToMap ds (OtherRotationPolicy dynamic_type)
  = (None, Some Unrecognized_subtype)
  ∧ (ClientSession_SecretsManagerV2 meta = inr client →
     rd_schema d = Resource_Schema (DataSource_Resource ds) →
     GetSecretMetadata (getClientWithInstanceEndpoint client d) (request_of d)
     = (intf, response, None) →
     expected_type ds intf = true →
     metadata_ID intf = Some id →
     metadata_Rotation intf = Some (OtherRotationPolicy dynamic_type) →
     (invoke (Read getClientWithInstanceEndpoint ds) d meta).1
     = Return (diag_FromErr Unrecognized_subtype)).
Proof.
  split; [by destruct ds|].
  intros Hsess Hsch Hfetch Htype HID Hrot.
  by erewrite Read_unrecognized.
Qed.

(** C4.  When the remote fetch fails, either read function returns one
    error diagnostic whose text ends with the rendered response, and the
    resource data is left as it was. *)
Theorem C4_fetch_failure ds meta client d intf response err :
  ClientSession_SecretsManagerV2 meta = inr client →
  rd_schema d = Resource_Schema (DataSource_Resource ds) →
  GetSecretMetadata (getClientWithInstanceEndpoint client d) (request_of d)
  = (intf, response, Some err) →
  ∃ summary context,
    (invoke (Read getClientWithInstanceEndpoint ds) d meta).1
    = Return [Build_Diagnostic Error summary]
    ∧ summary = context +:+ DetailedResponse_String response
    ∧ run_d (invoke (Read getClientWithInstanceEndpoint ds) d meta).2 = d.
Proof.
  intros Hsess Hsch Hfetch.
  rewrite (Read_fetch_failed _ _ _ _ _ _ _ _ Hsess Hsch Hfetch).
  exists (fetch_failed_message err response),
         ("GetSecretMetadataWithContext failed " +:+ err +:+ LF).
  split; [done|split; [|done]].
  unfold fetch_failed_message. by rewrite !string_app_assoc.
Qed.

(** C5, as amended.  A validity window with both timestamps maps to the
    one record that holds, under [not_before] and [not_after], what the
    [String] method of each timestamp renders, and a read of a certificate
    with that window stores a list of that one record.  The strings are
    those of the rendering, not those the service sent. *)
Theorem C5_validity_window
    (not_before not_after : DateTime) meta client d m response id :
  let window := CertificateValidity.Build (Some not_before) (Some not_after) in
  let record : gmap string scalar :=
    {[ "not_before" := SString (DateTime_String not_before);
       "not_after" := SString (DateTime_String not_after) ]} in
  dataSourceIbmSmPrivateCertificateMetadataCertificateValidityToMap window
  = (Some record, None)
  ∧ (ClientSession_SecretsManagerV2 meta = inr client →
     rd_schema d = Resource_Schema DataSourceIbmSmPrivateCertificateMetadata →
     GetSecretMetadata (getClientWithInstanceEndpoint client d) (request_of d)
     = (PrivateCertificateMetadataPtr m, response, None) →
     PrivateCertificateMetadata.ID m = Some id →
     (∀ model, PrivateCertificateMetadata.Rotation m = Some model →
               recognized model = true) →
     PrivateCertificateMetadata.Validity m = Some window →
     ∃ d',
       invoke (Read getClientWithInstanceEndpoint PrivateCertificate) d meta
       = (Return [], Build_Run d' [request_of d])
       ∧ rd_attrs d' !! "validity" = Some (AList [record])).
Proof.
  intros window record.
  assert (Hmap :
    dataSourceIbmSmPrivateCertificateMetadataCertificateValidityToMap window
    = (Some record, None)) by reflexivity.
  split; [exact Hmap|].
  intros Hsess Hsch Hfetch HID Hrec Hval. eexists. split.
  - by eapply PrivateCertificate_read_run.
  - assert (∃ s fields,
              schema_of
                (Resource_Schema DataSourceIbmSmPrivateCertificateMetadata)
                "validity" = Some s
              ∧ Elem s = ElemResource fields
              ∧ zero_record fields
                = <["not_before" := SString ""]>
                    (<["not_after" := SString ""]> ∅))
      as (s & fields & Hs & Helem & Hzero)
      by (eexists _, _; split; [vm_compute; reflexivity|];
          split; [reflexivity|vm_compute; reflexivity]).
    rewrite (lookup_written_attr (PrivateCertificateMetadataPtr m) _
               "validity"
               (Some (AList (validity_list
                               (PrivateCertificateMetadata.Validity m)))) s).
    + rewrite Hval. unfold validity_list. rewrite Hmap.
      rewrite (stored_AList _ _ _ Helem), Hzero. cbn [fmap list_fmap default fst].
      reflexivity.
    + unfold metadata_writes, PrivateCertificate_writes,
        PrivateCertificate_writes_after_rotation.
      rewrite !elem_of_app, !elem_of_cons. tauto.
    + by rewrite rd_schema_SetId, Hsch.
Qed.

(** C6.  The private-certificate read for identifier [secret-123], when
    the fetch yields that secret with state 1, two versions and no rotation
    policy, stores [state = 1], [versions_total = 2] and the empty list
    under [rotation].  [flex.IntValue] is only assumed to unwrap the two
    non-nil integers. *)
Theorem C6_secret_123 meta client d m response :
  flex_IntValue (Some 1) = 1 →
  flex_IntValue (Some 2) = 2 →
  requested_id d = "secret-123" →
  ClientSession_SecretsManagerV2 meta = inr client →
  rd_schema d = Resource_Schema DataSourceIbmSmPrivateCertificateMetadata →
  GetSecretMetadata (getClientWithInstanceEndpoint client d)
    (Build_GetSecretMetadataOptions (Some "secret-123"))
  = (PrivateCertificateMetadataPtr m, response, None) →
  PrivateCertificateMetadata.ID m = Some "secret-123" →
  PrivateCertificateMetadata.State m = Some 1 →
  PrivateCertificateMetadata.VersionsTotal m = Some 2 →
  PrivateCertificateMetadata.Rotation m = None →
  ∃ d',
    invoke (Read getClientWithInstanceEndpoint PrivateCertificate) d meta
    = (Return [],
       Build_Run d' [Build_GetSecretMetadataOptions (Some "secret-123")])
    ∧ rd_attrs d' !! "state" = Some (AScalar (SInt 1))
    ∧ rd_attrs d' !! "versions_total" = Some (AScalar (SInt 2))
    ∧ rd_attrs d' !! "rotation" = Some (AList []).
Proof.
  intros Hone Htwo Hid Hsess Hsch Hfetch HID Hstate Hversions Hrot.
  assert (Hreq : request_of d
                 = Build_GetSecretMetadataOptions (Some "secret-123"))
    by (unfold request_of; by rewrite Hid).
  rewrite <- Hreq in Hfetch |- *.
  eexists. split.
  - eapply PrivateCertificate_read_run; [done..|]. by rewrite Hrot.
  - assert (Hsch' :
      rd_schema (ResourceData_SetId "secret-123" d)
      = Resource_Schema DataSourceIbmSmPrivateCertificateMetadata)
      by (by rewrite rd_schema_SetId).
    split; [|split].
    + eapply (lookup_written_as (PrivateCertificateMetadataPtr m) _ "state"
                (Some (AScalar (SInt (flex_IntValue
                   (PrivateCertificateMetadata.State m)))))).
      * unfold metadata_writes, PrivateCertificate_writes,
          PrivateCertificate_writes_before_rotation.
        rewrite !elem_of_app, !elem_of_cons. tauto.
      * rewrite Hsch'. vm_compute. reflexivity.
      * by rewrite Hstate, Hone.
    + eapply (lookup_written_as (PrivateCertificateMetadataPtr m) _
                "versions_total"
                (Some (AScalar (SInt (flex_IntValue
                   (PrivateCertificateMetadata.VersionsTotal m)))))).
      * unfold metadata_writes, PrivateCertificate_writes,
          PrivateCertificate_writes_before_rotation.
        rewrite !elem_of_app, !elem_of_cons. tauto.
      * rewrite Hsch'. vm_compute. reflexivity.
      * by rewrite Hversions, Htwo.
    + eapply (lookup_written_as (PrivateCertificateMetadataPtr m) _
                "rotation"
                (Some (AList (rotation_list PrivateCertificate
                   (PrivateCertificateMetadata.Rotation m))))).
      * unfold metadata_writes, PrivateCertificate_writes.
        rewrite !elem_of_app, !elem_of_cons. tauto.
      * rewrite Hsch'. vm_compute. reflexivity.
      * by rewrite Hrot.
Qed.


(** C10.  After a successful fetch the response is asserted to the type of
    the data source and its ID is dereferenced: with that type and a
    non-nil ID the read does not panic and sets the resource ID; with any
    other type, or a nil ID, it panics, leaving the resource data as it was
    and returning no diagnostics. *)
Theorem C10_type_assertion ds meta client d intf response :
  ClientSession_SecretsManagerV2 meta = inr client →
  rd_schema d = Resource_Schema (DataSource_Resource ds) →
  GetSecretMetadata (getClientWithInstanceEndpoint client d) (request_of d)
  = (intf, response, None) →
  match expected_type ds intf, metadata_ID intf with
  | true, Some id =>
      ∃ diags d',
        invoke (Read getClientWithInstanceEndpoint ds) d meta
        = (Return diags, Build_Run d' [request_of d])
        ∧ rd_Id d' = id
  | _, _ =>
      ∃ reason,
        invoke (Read getClientWithInstanceEndpoint ds) d meta
        = (Panic reason, Build_Run d [request_of d])
  end.
Proof.
  intros Hsess Hsch Hfetch.
  destruct (expected_type ds intf) eqn:Htype.
  2:{ by eapply Read_type_mismatch. }
  destruct (metadata_ID intf) as [id|] eqn:HID.
  2:{ by eapply Read_nil_ID. }
  destruct (metadata_Rotation intf) as [model|] eqn:Hrot;
    [destruct (recognized model) eqn:Hrec|].
  - assert (Hall : ∀ model', Some model = Some model' →
                             recognized model' = true)
      by (by intros ? [= <-]).
    rewrite <- Hrot in Hall.
    eexists _, _. split.
    + exact (Read_mapped _ _ _ _ _ _ _ _ Hsess Hsch Hfetch Htype HID Hall).
    + by rewrite rd_Id_apply_writes.
  - eexists _, _. split.
    + exact (Read_unrecognized _ _ _ _ _ _ _ _ _
               Hsess Hsch Hfetch Htype HID Hrot Hrec).
    + by rewrite rd_Id_apply_writes.
  - assert (Hall : ∀ model', metadata_Rotation intf = Some model' →
                             recognized model' = true)
      by (rewrite Hrot; by intros ? [=]).
    eexists _, _. split.
    + exact (Read_mapped _ _ _ _ _ _ _ _ Hsess Hsch Hfetch Htype HID Hall).
    + by rewrite rd_Id_apply_writes.
Qed.

End Data_sources.

(** C9.  The rotation-policy mappers of the two data sources agree on
    every rotation policy: same map, same error. *)
Theorem C9_rotation_mappers_agree (model : RotationPolicyIntf) :
  dataSourceIbmSmPrivateCertificateMetadataRotationPolicyToMap model
  = dataSourceIbmSmUsernamePasswordSecretMetadataRotationPolicyToMap model.
Proof. destruct model; reflexivity. Qed.

Ltac schema_entries H :=
  apply elem_of_list_to_map_2 in H;
  cbn [DataSource_Resource Resource_Schema
       DataSourceIbmSmPrivateCertificateMetadata
       DataSourceIbmSmUsernamePasswordSecretMetadata] in H;
  repeat (apply elem_of_cons in H as [[= -> ->]|H]);
  [..|by apply elem_of_nil in H].

(** C8, as amended.  In either schema [id] is the one required attribute
    and every other attribute is computed; the attributes with a nested
    record are [rotation] and, for private certificates, [validity]: lists
    whose element is a record of computed primitives, declared without any
    bound on the number of elements. *)
Theorem C8_schema_declarations ds key s :
  schema_of (Resource_Schema (DataSource_Resource ds)) key = Some s →
  (Required s = true ↔ key = "id")
  ∧ (Computed s = true ↔ key ≠ "id")
  ∧ Optional s = false
  ∧ match Elem s with
    | ElemResource fields =>
        (key = "rotation" ∨ (ds = PrivateCertificate ∧ key = "validity"))
        ∧ Type_ s = TypeList
        ∧ MaxItems s = 0
        ∧ MinItems s = 0
        ∧ Forall (λ f, Computed f.2 = true ∧ Required f.2 = false
                       ∧ Elem f.2 = ElemNil) fields
    | _ => key ≠ "rotation" ∧ key ≠ "validity"
    end
  ∧ is_Some (schema_of (Resource_Schema (DataSource_Resource ds)) "rotation")
  ∧ match ds with
    | PrivateCertificate =>
        is_Some (schema_of (Resource_Schema (DataSource_Resource ds))
                   "validity")
    | UsernamePassword =>
        schema_of (Resource_Schema (DataSource_Resource ds)) "validity" = None
    end.
Proof.
  intros Hs. unfold schema_of in Hs.
  destruct ds; schema_entries Hs.
  all: vm_compute.
  all: repeat split; try done; try (by eexists); try (by intros [=]);
       try (by left); try (by right);
       repeat constructor.
Qed.

(** ** The closed examples *)



(** C3 at the example certificate whose rotation policy has an unknown
    shape. *)
Lemma C3_witness :
  (example_read example_unknown_policy).1
  = Return (diag_FromErr Unrecognized_subtype).
Proof.
  apply (proj2 (C3_unrecognized_rotation_policy
                  (collaborators := example_collaborators)
                  example_getClientWithInstanceEndpoint PrivateCertificate
                  "*secretsmanagerv2.FutureRotationPolicy"
                  (example_session (example_answer example_unknown_policy))
                  (example_client (example_answer example_unknown_policy))
                  (example_d PrivateCertificate)
                  (PrivateCertificateMetadataPtr example_unknown_policy) None
                  "secret-123"));
    vm_compute; reflexivity.
Defined.

(** C4 at a username/password read whose fetch is rejected. *)
Lemma C4_witness :
  ∃ summary context,
    (invoke (Read (collaborators := example_collaborators)
               example_getClientWithInstanceEndpoint UsernamePassword)
       (example_d UsernamePassword) (example_session example_not_found)).1
    = Return [Build_Diagnostic Error summary]
    ∧ summary = context +:+ "404 Not Found" +:+ LF
    ∧ run_d (invoke (Read (collaborators := example_collaborators)
                       example_getClientWithInstanceEndpoint UsernamePassword)
               (example_d UsernamePassword)
               (example_session example_not_found)).2
      = example_d UsernamePassword.
Proof.
  apply (C4_fetch_failure (collaborators := example_collaborators)
           example_getClientWithInstanceEndpoint UsernamePassword
           (example_session example_not_found)
           (example_client example_not_found)
           (example_d UsernamePassword)
           NilSecretMetadata (Some "404 Not Found") "secret not found");
    vm_compute; reflexivity.
Defined.

(** C5, counterexample.  The window from 2023-01-01T00:00:00Z to
    2024-01-01T00:00:00Z maps to a record whose strings carry the
    milliseconds of the rendering: they are not the strings
    [2023-01-01T00:00:00Z] and [2024-01-01T00:00:00Z]. *)
Lemma C5_counterexample :
  ∃ record,
    dataSourceIbmSmPrivateCertificateMetadataCertificateValidityToMap
      (collaborators := example_collaborators) example_window
    = (Some record, None)
    ∧ record !! "not_before" = Some (SString "2023-01-01T00:00:00.000Z")
    ∧ record !! "not_before" ≠ Some (SString "2023-01-01T00:00:00Z")
    ∧ record !! "not_after" = Some (SString "2024-01-01T00:00:00.000Z")
    ∧ record !! "not_after" ≠ Some (SString "2024-01-01T00:00:00Z").
Proof.
  eexists. split; [reflexivity|].
  repeat split; try (vm_compute; reflexivity); vm_compute; discriminate.
Qed.

(** C5 at the example window, read as part of the example certificate. *)
Lemma C5_witness :
  dataSourceIbmSmPrivateCertificateMetadataCertificateValidityToMap
    (collaborators := example_collaborators) example_window
  = (Some {[ "not_before" := SString "2023-01-01T00:00:00.000Z";
             "not_after" := SString "2024-01-01T00:00:00.000Z" ]}, None)
  ∧ ∃ d',
      example_read example_rotating
      = (Return [], Build_Run d' [request_of (example_d PrivateCertificate)])
      ∧ rd_attrs d' !! "validity"
        = Some (AList [ {[ "not_before" := SString "2023-01-01T00:00:00.000Z";
                           "not_after" := SString "2024-01-01T00:00:00.000Z" ]} ]).
Proof.
  pose proof (C5_validity_window (collaborators := example_collaborators)
                example_getClientWithInstanceEndpoint
                (example_new_year 2023) (example_new_year 2024)
                (example_session (example_answer example_rotating))
                (example_client (example_answer example_rotating))
                (example_d PrivateCertificate) example_rotating None
                "secret-123") as [Hmap Hread].
  split; [exact Hmap|].
  apply Hread; try (vm_compute; reflexivity).
  intros model Hmodel. vm_compute in Hmodel. injection Hmodel as <-.
  reflexivity.
Defined.

(** C6 at the example certificate without rotation policy. *)
Lemma C6_witness :
  ∃ d',
    example_read example_plain
    = (Return [],
       Build_Run d' [Build_GetSecretMetadataOptions (Some "secret-123")])
    ∧ rd_attrs d' !! "state" = Some (AScalar (SInt 1))
    ∧ rd_attrs d' !! "versions_total" = Some (AScalar (SInt 2))
    ∧ rd_attrs d' !! "rotation" = Some (AList []).
Proof.
  apply (C6_secret_123 (collaborators := example_collaborators)
           example_getClientWithInstanceEndpoint
           (example_session (example_answer example_plain))
           (example_client (example_answer example_plain))
           (example_d PrivateCertificate) example_plain None);
    vm_compute; reflexivity.
Defined.



(** C8, counterexample.  The [rotation] attribute is declared as a list of
    records with no [MaxItems]: the declaration does not make it a list of
    one element, and a write of two records is accepted. *)
Lemma C8_counterexample :
  ∃ s,
    schema_of (Resource_Schema DataSourceIbmSmPrivateCertificateMetadata)
      "rotation" = Some s
    ∧ Type_ s = TypeList
    ∧ MaxItems s ≠ 1
    ∧ ResourceData_Set "rotation" (ListOfMaps [∅; ∅])
        (example_d PrivateCertificate)
      = (None,
         store "rotation" (Some (AList [∅; ∅])) (example_d PrivateCertificate)).
Proof.
  eexists. split; [vm_compute; reflexivity|].
  split; [reflexivity|]. split; [discriminate|].
  apply ResourceData_Set_accepted. vm_compute. reflexivity.
Qed.

(** C8 at the [id] attribute of the username/password schema. *)
Lemma C8_witness :
  (Required (lit [Type_is TypeString; Required_is true;
                  Description_is "The ID of the secret."]) = true
   ↔ "id" = "id")
  ∧ is_Some (schema_of
               (Resource_Schema DataSourceIbmSmUsernamePasswordSecretMetadata)
               "rotation").
Proof.
  pose proof (C8_schema_declarations UsernamePassword "id"
                (lit [Type_is TypeString; Required_is true;
                      Description_is "The ID of the secret."])) as Hid.
  destruct Hid as (Hreq & _ & _ & _ & Hrot & _).
  - vm_compute. reflexivity.
  - split; [exact Hreq|exact Hrot].
Defined.

(** C10 at a fetched certificate, and at a fetched secret of another type. *)
Lemma C10_witness :
  (∃ diags d',
     example_read example_rotating
     = (Return diags, Build_Run d' [request_of (example_d PrivateCertificate)])
     ∧ rd_Id d' = "secret-123")
  ∧ (∃ reason,
       invoke (Read (collaborators := example_collaborators)
                 example_getClientWithInstanceEndpoint PrivateCertificate)
         (example_d PrivateCertificate) (example_session example_other_type)
       = (Panic reason,
          Build_Run (example_d PrivateCertificate)
            [request_of (example_d PrivateCertificate)])).
Proof.
  split.
  - exact (C10_type_assertion (collaborators := example_collaborators)
             example_getClientWithInstanceEndpoint PrivateCertificate
             (example_session (example_answer example_rotating))
             (example_client (example_answer example_rotating))
             (example_d PrivateCertificate)
             (PrivateCertificateMetadataPtr example_rotating) None
             eq_refl eq_refl eq_refl).
  - exact (C10_type_assertion (collaborators := example_collaborators)
             example_getClientWithInstanceEndpoint PrivateCertificate
             (example_session example_other_type)
             (example_client example_other_type)
             (example_d PrivateCertificate)
             (OtherSecretMetadata "*secretsmanagerv2.ArbitrarySecretMetadata")
             None eq_refl eq_refl eq_refl).
Defined.

(** * Further properties of the read functions *)

Lemma bind_d_Set_write_rejected {B : Type} key v diags (k : unit → Exec B)
    ws d0 calls :
  accepted (rd_schema d0) key (indirect v) = false →
  bind (d_Set key v)
       (λ err, bind (if_err err (λ err, return_ (diags err))) k)
       (Build_Run (apply_writes ws d0) calls)
  = (Return (diags (Set_error key v (apply_writes ws d0))),
     Build_Run (apply_writes ws d0) calls).
Proof.
  intros Hno. rewrite <- (rd_schema_apply_writes ws) in Hno.
  destruct (ResourceData_Set_rejected _ _ _ Hno) as [err Herr].
  unfold bind at 1, d_Set, Set_error. cbn [run_d run_calls].
  by rewrite Herr.
Qed.

Section Stops.
Context {collaborators : Collaborators}.
Variable getClientWithInstanceEndpoint :
  SecretsManagerV2 → ResourceData → SecretsManagerV2.

Lemma bind_custom_metadata_accepted {B : Type} (cm : gmap string Any)
    diags1 diags2 (k : unit → Exec B) ws d0 calls :
  accepted (rd_schema d0) "custom_metadata"
    (Some (AMap (flex_Flatten cm))) = true →
  bind (bind (d_Set "custom_metadata"
                (MapOfString (flex_Flatten (range_copy cm))))
             (λ err,
                bind (if_err err (λ err, return_ (diags1 err)))
                     (λ _, if_err err (λ err, return_ (diags2 err)))))
       k (Build_Run (apply_writes ws d0) calls)
  = k tt (Build_Run
            (apply_writes
               (ws ++ [("custom_metadata", Some (AMap (flex_Flatten cm)))])
               d0) calls).
Proof.
  intros Hok. rewrite range_copy_id. unfold bind, d_Set.
  cbn [run_d run_calls].
  rewrite ResourceData_Set_accepted
    by (by rewrite rd_schema_apply_writes).
  cbn [if_err next indirect]. by rewrite apply_writes_app.
Qed.

Lemma bind_custom_metadata_rejected {B : Type} (cm : gmap string Any)
    diags1 diags2 (k : unit → Exec B) ws d0 calls :
  accepted (rd_schema d0) "custom_metadata"
    (Some (AMap (flex_Flatten cm))) = false →
  bind (bind (d_Set "custom_metadata"
                (MapOfString (flex_Flatten (range_copy cm))))
             (λ err,
                bind (if_err err (λ err, return_ (diags1 err)))
                     (λ _, if_err err (λ err, return_ (diags2 err)))))
       k (Build_Run (apply_writes ws d0) calls)
  = (Return (diags1 (Set_error "custom_metadata"
                       (MapOfString (flex_Flatten cm))
                       (apply_writes ws d0))),
     Build_Run (apply_writes ws d0) calls).
Proof.
  intros Hno. rewrite range_copy_id.
  rewrite <- (rd_schema_apply_writes ws) in Hno.
  destruct (ResourceData_Set_rejected _ (MapOfString (flex_Flatten cm)) _ Hno)
    as [err Herr].
  unfold bind, d_Set, Set_error. cbn [run_d run_calls].
  by rewrite Herr.
Qed.

(** The list of writes, as one list. *)
Ltac flatten_writes :=
  lazymatch goal with
  | |- stops_at ?sch ?writes ?d0 ?calls ?result =>
      let flat := eval cbn [app] in writes in
      change (stops_at sch flat d0 calls result)
  end.

(** The outcome once a write is rejected. *)
Ltac stopped :=
  lazymatch goal with
  | |- context [Set_error ?key ?v ?d] =>
      generalize (Set_error key v d); intros ?
  end;
  lazymatch goal with
  | |- stops_at _ _ _ _ (_, Build_Run (apply_writes ?ws _) _) =>
      let made := eval cbn [app] in ws in
      exists made; eexists _, _;
      split; [reflexivity|]; split; [reflexivity|]; split;
      [ repeat first [ apply Forall_nil_2
                     | apply Forall_cons_2
                     | match goal with H : accepted _ _ _ = true |- _ =>
                         exact H end ]
      | split; [ match goal with H : accepted _ _ _ = false |- _ =>
                   exact H end
               | eexists; reflexivity ] ]
  end.

(** The outcome once every write is made. *)
Ltac finished :=
  unfold return_;
  lazymatch goal with
  | |- stops_at _ _ _ _ (_, Build_Run (apply_writes ?ws _) _) =>
      let made := eval cbn [app] in ws in
      exists made, [], [];
      split; [by rewrite app_nil_r|]; split; [reflexivity|];
      split; [|reflexivity];
      repeat first [ apply Forall_nil_2
                   | apply Forall_cons_2
                   | match goal with H : accepted _ _ _ = true |- _ =>
                       exact H end ]
  end.

(** The custom-metadata block for a non-nil map. *)
Ltac custom_or_stop :=
  lazymatch goal with
  | |- stops_at _ _ ?d0 _
         (bind (bind (d_Set "custom_metadata"
                        (MapOfString (flex_Flatten (range_copy ?cm)))) _)
               _ _) =>
      destruct (accepted (rd_schema d0) "custom_metadata"
                  (Some (AMap (flex_Flatten cm)))) eqn:?;
      [ rewrite bind_custom_metadata_accepted by assumption; cbv beta
      | rewrite bind_custom_metadata_rejected by assumption; stopped ]
  end.

(** One checked write, whichever way the schema decides. *)
Ltac write_or_stop :=
  lazymatch goal with
  | |- stops_at _ _ ?d0 _ (bind (d_Set ?key ?v) _ _) =>
      destruct (accepted (rd_schema d0) key (indirect v)) eqn:?;
      [ rewrite bind_d_Set_write by assumption; cbv beta
      | rewrite bind_d_Set_write_rejected by assumption; stopped ]
  end.

Lemma PrivateCertificate_stops_at meta client d m response id id0 :
  ClientSession_SecretsManagerV2 meta = inr client →
  ResourceData_Get "id" d = Some (AScalar (SString id0)) →
  GetSecretMetadata (getClientWithInstanceEndpoint client d)
    (Build_GetSecretMetadataOptions (Some id0))
  = (PrivateCertificateMetadataPtr m, response, None) →
  PrivateCertificateMetadata.ID m = Some id →
  (∀ model, PrivateCertificateMetadata.Rotation m = Some model →
            recognized model = true) →
  stops_at (rd_schema d) (PrivateCertificate_writes m)
    (ResourceData_SetId id d) [Build_GetSecretMetadataOptions (Some id0)]
    (invoke (dataSourceIbmSmPrivateCertificateMetadataRead
               getClientWithInstanceEndpoint) d meta).
Proof.
  intros Hsess Hget Hfetch HID Hrec.
  unfold invoke, dataSourceIbmSmPrivateCertificateMetadataRead.
  rewrite Hsess, bind_get_d; cbv zeta.
  rewrite bind_d_Get; cbn [run_d]; rewrite Hget; cbn [assert_string].
  rewrite bind_next; unfold SetID.
  rewrite bind_GetSecretMetadataWithContext; cbn [run_d run_calls].
  rewrite app_nil_r, (sent_success _ _ _ _ Hfetch), Hfetch; cbv beta iota.
  rewrite bind_if_err_None; cbn [assert_PrivateCertificateMetadata].
  rewrite bind_next, HID; cbn [deref].
  rewrite bind_next, bind_d_SetId; cbn [run_d run_calls].
  change (rd_schema d) with (rd_schema (ResourceData_SetId id d)).
  generalize (ResourceData_SetId id d). intros d0.
  lazymatch goal with
  | |- context [Build_Run d0 ?calls] =>
      change (Build_Run d0 calls) with (Build_Run (apply_writes [] d0) calls)
  end.
  unfold PrivateCertificate_writes, PrivateCertificate_writes_before_rotation,
    PrivateCertificate_writes_after_rotation.
  destruct (PrivateCertificateMetadata.CustomMetadata m) as [cm|]; cbv iota;
    flatten_writes.
  - repeat write_or_stop. custom_or_stop. repeat write_or_stop.
    rewrite bind_mapped_block
      by (intros model Hm;
          by apply (recognized_no_error PrivateCertificate), Hrec).
    repeat write_or_stop.
    rewrite bind_mapped_block by (by intros [??] _).
    repeat write_or_stop. finished.
  - repeat write_or_stop. rewrite bind_next. repeat write_or_stop.
    rewrite bind_mapped_block
      by (intros model Hm;
          by apply (recognized_no_error PrivateCertificate), Hrec).
    repeat write_or_stop.
    rewrite bind_mapped_block by (by intros [??] _).
    repeat write_or_stop. finished.
Qed.

Lemma UsernamePassword_stops_at meta client d m response id id0 :
  ClientSession_SecretsManagerV2 meta = inr client →
  ResourceData_Get "id" d = Some (AScalar (SString id0)) →
  GetSecretMetadata (getClientWithInstanceEndpoint client d)
    (Build_GetSecretMetadataOptions (Some id0))
  = (UsernamePasswordSecretMetadataPtr m, response, None) →
  UsernamePasswordSecretMetadata.ID m = Some id →
  (∀ model, UsernamePasswordSecretMetadata.Rotation m = Some model →
            recognized model = true) →
  stops_at (rd_schema d) (UsernamePassword_writes m)
    (ResourceData_SetId id d) [Build_GetSecretMetadataOptions (Some id0)]
    (invoke (dataSourceIbmSmUsernamePasswordSecretMetadataRead
               getClientWithInstanceEndpoint) d meta).
Proof.
  intros Hsess Hget Hfetch HID Hrec.
  unfold invoke, dataSourceIbmSmUsernamePasswordSecretMetadataRead.
  rewrite Hsess, bind_get_d; cbv zeta.
  rewrite bind_d_Get; cbn [run_d]; rewrite Hget; cbn [assert_string].
  rewrite bind_next; unfold SetID.
  rewrite bind_GetSecretMetadataWithContext; cbn [run_d run_calls].
  rewrite app_nil_r, (sent_success _ _ _ _ Hfetch), Hfetch; cbv beta iota.
  rewrite bind_if_err_None; cbn [assert_UsernamePasswordSecretMetadata].
  rewrite bind_next, HID; cbn [deref].
  rewrite bind_next, bind_d_SetId; cbn [run_d run_calls].
  change (rd_schema d) with (rd_schema (ResourceData_SetId id d)).
  generalize (ResourceData_SetId id d). intros d0.
  lazymatch goal with
  | |- context [Build_Run d0 ?calls] =>
      change (Build_Run d0 calls) with (Build_Run (apply_writes [] d0) calls)
  end.
  unfold UsernamePassword_writes, UsernamePassword_writes_before_rotation,
    UsernamePassword_writes_after_rotation.
  destruct (UsernamePasswordSecretMetadata.CustomMetadata m) as [cm|]; cbv iota;
    flatten_writes.
  - repeat write_or_stop. custom_or_stop. repeat write_or_stop.
    rewrite bind_mapped_block
      by (intros model Hm;
          by apply (recognized_no_error UsernamePassword), Hrec).
    repeat write_or_stop. finished.
  - repeat write_or_stop. rewrite bind_next. repeat write_or_stop.
    rewrite bind_mapped_block
      by (intros model Hm;
          by apply (recognized_no_error UsernamePassword), Hrec).
    repeat write_or_stop. finished.
Qed.

(** X1.  Whatever schema the resource data was created with, a read that
    got a record of the expected type, with an ID and a nil or known
    rotation policy, makes its writes in program order up to the first one
    the schema rejects: it then returns one error diagnostic naming that
    attribute and keeps the writes made before; with no write rejected it
    makes them all and returns no diagnostics.  It never panics there. *)
Theorem Read_stops_at_first_rejected_write
    ds meta client d intf response id id0 :
  ClientSession_SecretsManagerV2 meta = inr client →
  ResourceData_Get "id" d = Some (AScalar (SString id0)) →
  GetSecretMetadata (getClientWithInstanceEndpoint client d)
    (Build_GetSecretMetadataOptions (Some id0))
  = (intf, response, None) →
  expected_type ds intf = true →
  metadata_ID intf = Some id →
  (∀ model, metadata_Rotation intf = Some model → recognized model = true) →
  stops_at (rd_schema d) (metadata_writes intf) (ResourceData_SetId id d)
    [Build_GetSecretMetadataOptions (Some id0)]
    (invoke (Read getClientWithInstanceEndpoint ds) d meta).
Proof.
  intros Hsess Hget Hfetch Htype HID Hrec.
  destruct ds, intf; try discriminate Htype; simpl in *.
  - by eapply PrivateCertificate_stops_at.
  - by eapply UsernamePassword_stops_at.
Qed.


Lemma metadata_writes_before_rotation_NoDup intf :
  NoDup (metadata_writes_before_rotation intf).*1.
Proof.
  destruct intf as [m|m| |]; simpl; try apply NoDup_nil_2.
  - unfold PrivateCertificate_writes_before_rotation.
    destruct (PrivateCertificateMetadata.CustomMetadata m);
      apply (bool_decide_unpack _); vm_compute; reflexivity.
  - unfold UsernamePassword_writes_before_rotation.
    destruct (UsernamePasswordSecretMetadata.CustomMetadata m);
      apply (bool_decide_unpack _); vm_compute; reflexivity.
Qed.

Lemma before_rotation_written intf w :
  w ∈ metadata_writes_before_rotation intf → w ∈ metadata_writes intf.
Proof.
  destruct intf as [m|m| |]; simpl; try done.
  - unfold PrivateCertificate_writes. rewrite elem_of_app. by left.
  - unfold UsernamePassword_writes. rewrite elem_of_app. by left.
Qed.

(** X2.  A read that meets a rotation policy of an unknown shape has by
    then set the resource ID, and with it the attribute [id], and written
    every attribute that precedes the rotation block; it returns the
    mapper's error and writes nothing further: [rotation] and the
    attributes a complete read writes after it are as they were. *)
Theorem unknown_policy_keeps_earlier_writes
    ds meta client d intf response id model :
  ClientSession_SecretsManagerV2 meta = inr client →
  rd_schema d = Resource_Schema (DataSource_Resource ds) →
  GetSecretMetadata (getClientWithInstanceEndpoint client d) (request_of d)
  = (intf, response, None) →
  expected_type ds intf = true →
  metadata_ID intf = Some id →
  metadata_Rotation intf = Some model →
  recognized model = false →
  ∃ d',
    invoke (Read getClientWithInstanceEndpoint ds) d meta
    = (Return (diag_FromErr Unrecognized_subtype),
       Build_Run d' [request_of d])
    ∧ rd_Id d' = id
    ∧ rd_attrs d' !! "id" = Some (AScalar (SString id))
    ∧ Forall (λ w, ∃ s,
                schema_of (Resource_Schema (DataSource_Resource ds)) w.1
                = Some s
                ∧ rd_attrs d' !! w.1 = Some (stored s w.2))
        (metadata_writes_before_rotation intf)
    ∧ (∀ key, key ∈ (metadata_writes intf).*1 →
              key ∉ (metadata_writes_before_rotation intf).*1 →
              rd_attrs d' !! key = rd_attrs d !! key)
    ∧ "rotation" ∈ (metadata_writes intf).*1
    ∧ ("rotation" ∉ (metadata_writes_before_rotation intf).*1).
Proof.
  intros Hsess Hsch Hfetch Htype HID Hrot Hrec. eexists.
  split; [by eapply Read_unrecognized|].
  split; [by rewrite rd_Id_apply_writes|].
  split; [|split; [|split; [|split]]].
  - rewrite apply_writes_other
      by (apply untouched_not_written; repeat constructor).
    by rewrite lookup_SetId.
  - apply Forall_forall. intros w Hw.
    assert (is_Some (schema_of (Resource_Schema (DataSource_Resource ds))
                       w.1)) as [s Hs].
    { pose proof (metadata_writes_declared ds intf Htype) as Hall.
      rewrite Forall_forall in Hall. apply Hall.
      apply list_elem_of_fmap. exists w.
      split; [done|by apply before_rotation_written]. }
    exists s. split; [done|].
    apply apply_writes_elem;
      [apply metadata_writes_before_rotation_NoDup|done|].
    by rewrite rd_schema_SetId, Hsch.
  - intros key Hkey Hbefore. rewrite apply_writes_other by done.
    rewrite lookup_SetId. rewrite decide_False; [done|].
    intros <-. revert Hkey. apply untouched_not_written. repeat constructor.
  - apply list_elem_of_fmap.
    destruct ds, intf as [m|m| |]; try discriminate Htype.
    + exists ("rotation",
              Some (AList (rotation_list PrivateCertificate
                             (PrivateCertificateMetadata.Rotation m)))).
      split; [reflexivity|].
      unfold metadata_writes, PrivateCertificate_writes.
      rewrite !elem_of_app, !elem_of_cons. tauto.
    + exists ("rotation",
              Some (AList (rotation_list UsernamePassword
                             (UsernamePasswordSecretMetadata.Rotation m)))).
      split; [reflexivity|].
      unfold metadata_writes, UsernamePassword_writes.
      rewrite !elem_of_app, !elem_of_cons. tauto.
  - destruct ds, intf as [m|m| |]; try discriminate Htype; simpl.
    + unfold PrivateCertificate_writes_before_rotation.
      destruct (PrivateCertificateMetadata.CustomMetadata m);
        apply (bool_decide_unpack _); vm_compute; reflexivity.
    + unfold UsernamePassword_writes_before_rotation.
      destruct (UsernamePasswordSecretMetadata.CustomMetadata m);
        apply (bool_decide_unpack _); vm_compute; reflexivity.
Qed.

(** X4.  With the schema of its own data source, the outcome of a read is
    decided by four checks in turn: the session, the fetch, the type and ID
    of the record, the shape of its rotation policy.  No other diagnostic
    arises; in particular no write is ever rejected. *)
Theorem Read_outcome ds meta d :
  rd_schema d = Resource_Schema (DataSource_Resource ds) →
  match ClientSession_SecretsManagerV2 meta with
  | inl err =>
      (invoke (Read getClientWithInstanceEndpoint ds) d meta).1
      = Return (diag_FromErr err)
  | inr client =>
      match GetSecretMetadata (getClientWithInstanceEndpoint client d)
              (request_of d) with
      | (_, response, Some err) =>
          (invoke (Read getClientWithInstanceEndpoint ds) d meta).1
          = Return (diag_FromErr (fetch_failed_message err response))
      | (intf, _, None) =>
          match expected_type ds intf, metadata_ID intf,
                metadata_Rotation intf with
          | true, Some _, Some model =>
              (invoke (Read getClientWithInstanceEndpoint ds) d meta).1
              = if recognized model then Return []
                else Return (diag_FromErr Unrecognized_subtype)
          | true, Some _, None =>
              (invoke (Read getClientWithInstanceEndpoint ds) d meta).1
              = Return []
          | _, _, _ =>
              ∃ reason,
                (invoke (Read getClientWithInstanceEndpoint ds) d meta).1
                = Panic reason
          end
      end
  end.
Proof.
  intros Hsch.
  destruct (ClientSession_SecretsManagerV2 meta) as [err|client] eqn:Hsess.
  { by rewrite (Read_session_failed _ _ _ _ _ Hsess). }
  destruct (GetSecretMetadata (getClientWithInstanceEndpoint client d)
              (request_of d)) as [[intf response] [err|]] eqn:Hfetch.
  { by rewrite (Read_fetch_failed _ _ _ _ _ _ _ _ Hsess Hsch Hfetch). }
  destruct (expected_type ds intf) eqn:Htype.
  2:{ destruct (Read_type_mismatch _ _ _ _ _ _ _ Hsess Hsch Hfetch Htype)
        as [reason ->]. by exists reason. }
  destruct (metadata_ID intf) as [id|] eqn:HID.
  2:{ destruct (Read_nil_ID _ _ _ _ _ _ _ Hsess Hsch Hfetch Htype HID)
        as [reason ->]. by exists reason. }
  destruct (metadata_Rotation intf) as [model|] eqn:Hrot;
    [destruct (recognized model) eqn:Hrec|].
  - assert (Hall : ∀ model', Some model = Some model' →
                             recognized model' = true)
      by (by intros ? [= <-]).
    rewrite <- Hrot in Hall.
    by rewrite (Read_mapped _ _ _ _ _ _ _ _ Hsess Hsch Hfetch Htype HID Hall).
  - by rewrite (Read_unrecognized _ _ _ _ _ _ _ _ _
                  Hsess Hsch Hfetch Htype HID Hrot Hrec).
  - assert (Hall : ∀ model', metadata_Rotation intf = Some model' →
                             recognized model' = true)
      by (rewrite Hrot; by intros ? [=]).
    by rewrite (Read_mapped _ _ _ _ _ _ _ _ Hsess Hsch Hfetch Htype HID Hall).
Qed.

(** X5.  A successful read always stores [rotation] (and, for a private
    certificate, [validity]) as a list of at most one record: exactly one
    when the field of the fetched record is non-nil, none when it is nil. *)
Theorem nested_lists_hold_at_most_one
    ds meta client d intf response id :
  ClientSession_SecretsManagerV2 meta = inr client →
  rd_schema d = Resource_Schema (DataSource_Resource ds) →
  GetSecretMetadata (getClientWithInstanceEndpoint client d) (request_of d)
  = (intf, response, None) →
  expected_type ds intf = true →
  metadata_ID intf = Some id →
  (∀ model, metadata_Rotation intf = Some model → recognized model = true) →
  ∃ d' rotation,
    invoke (Read getClientWithInstanceEndpoint ds) d meta
    = (Return [], Build_Run d' [request_of d])
    ∧ rd_attrs d' !! "rotation" = Some (AList rotation)
    ∧ length rotation
      = match metadata_Rotation intf with Some _ => 1%nat | None => 0%nat end
    ∧ match intf with
      | PrivateCertificateMetadataPtr m =>
          ∃ validity,
            rd_attrs d' !! "validity" = Some (AList validity)
            ∧ length validity
              = match PrivateCertificateMetadata.Validity m with
                | Some _ => 1%nat
                | None => 0%nat
                end
      | _ => True
      end.
Proof.
  intros Hsess Hsch Hfetch Htype HID Hrec.
  assert (∃ s fields,
            schema_of (Resource_Schema (DataSource_Resource ds)) "rotation"
            = Some s
            ∧ Elem s = ElemResource fields)
    as (s & fields & Hs & Helem)
    by (destruct ds; eexists _, _;
        (split; [vm_compute; reflexivity|reflexivity])).
  assert (Hsch' : rd_schema (ResourceData_SetId id d)
                  = Resource_Schema (DataSource_Resource ds))
    by (by rewrite rd_schema_SetId).
  exists (apply_writes (metadata_writes intf) (ResourceData_SetId id d)),
         ((λ obj, obj ∪ zero_record fields)
            <$> rotation_list ds (metadata_Rotation intf)).
  split; [by eapply Read_mapped|].
  rewrite length_fmap.
  destruct ds, intf as [m|m| |]; try discriminate Htype;
    cbn [metadata_Rotation].
  - split; [|split].
    + eapply (lookup_written_as (PrivateCertificateMetadataPtr m) _
                "rotation"
                (Some (AList (rotation_list PrivateCertificate
                   (PrivateCertificateMetadata.Rotation m))))).
      * unfold metadata_writes, PrivateCertificate_writes.
        rewrite !elem_of_app, !elem_of_cons. tauto.
      * rewrite Hsch'. exact Hs.
      * by apply stored_AList.
    + by destruct (PrivateCertificateMetadata.Rotation m).
    + assert (∃ s' fields',
                schema_of
                  (Resource_Schema DataSourceIbmSmPrivateCertificateMetadata)
                  "validity" = Some s'
                ∧ Elem s' = ElemResource fields')
        as (s' & fields' & Hs' & Helem')
        by (eexists _, _; (split; [vm_compute; reflexivity|reflexivity])).
      exists ((λ obj, obj ∪ zero_record fields')
                <$> validity_list (PrivateCertificateMetadata.Validity m)).
      rewrite length_fmap. split.
      * eapply (lookup_written_as (PrivateCertificateMetadataPtr m) _
                  "validity"
                  (Some (AList (validity_list
                     (PrivateCertificateMetadata.Validity m))))).
        -- unfold metadata_writes, PrivateCertificate_writes,
             PrivateCertificate_writes_after_rotation.
           rewrite !elem_of_app, !elem_of_cons. tauto.
        -- rewrite Hsch'. exact Hs'.
        -- by apply stored_AList.
      * by destruct (PrivateCertificateMetadata.Validity m).
  - split; [|split; [|done]].
    + eapply (lookup_written_as (UsernamePasswordSecretMetadataPtr m) _
                "rotation"
                (Some (AList (rotation_list UsernamePassword
                   (UsernamePasswordSecretMetadata.Rotation m))))).
      * unfold metadata_writes, UsernamePassword_writes.
        rewrite !elem_of_app, !elem_of_cons. tauto.
      * rewrite Hsch'. exact Hs.
      * by apply stored_AList.
    + by destruct (UsernamePasswordSecretMetadata.Rotation m).
Qed.

(** X6.  The validity mapper never fails, and the record it returns holds
    exactly the timestamps that are present, rendered by their [String]
    method: [not_before] and [not_after], each only when non-nil. *)
Theorem CertificateValidityToMap_exact (model : CertificateValidity.t) :
  ∃ modelMap,
    dataSourceIbmSmPrivateCertificateMetadataCertificateValidityToMap model
    = (Some modelMap, None)
    ∧ holds_exactly modelMap
        [("not_before",
          (λ t, SString (DateTime_String t))
            <$> CertificateValidity.NotBefore model);
         ("not_after",
          (λ t, SString (DateTime_String t))
            <$> CertificateValidity.NotAfter model)].
Proof.
  eexists. split; [reflexivity|]. split.
  - repeat constructor; simpl; mapper_lookup;
      by match goal with |- context [?f <$> ?o] => destruct o end.
  - mapper_dom.
Qed.

(** X10.  Every record a mapper returns is accepted by the nested schema
    it is written under: the keys of a mapped rotation policy are declared
    by the [rotation] element of either data source with the type of the
    value, and those of a mapped validity window by the [validity]
    element. *)
Theorem mapped_records_conform ds (model : RotationPolicyIntf)
    (window : CertificateValidity.t) modelMap :
  RotationPolicyToMap ds model = (Some modelMap, None) →
  (∃ s fields,
     schema_of (Resource_Schema (DataSource_Resource ds)) "rotation" = Some s
     ∧ Elem s = ElemResource fields
     ∧ object_conforms fields modelMap = true)
  ∧ (∃ s fields windowMap,
       schema_of (Resource_Schema DataSourceIbmSmPrivateCertificateMetadata)
         "validity" = Some s
       ∧ Elem s = ElemResource fields
       ∧ dataSourceIbmSmPrivateCertificateMetadataCertificateValidityToMap
           window = (Some windowMap, None)
       ∧ object_conforms fields windowMap = true).
Proof.
  intros Hmap. split.
  - destruct ds, model as [[[?|] [?|] [?|]] |[[?|] [?|] [?|] [?|]]
                          |[[?|] [?|] [?|] [?|]] |];
      try discriminate Hmap; injection Hmap as <-;
      eexists _, _; (split; [vm_compute; reflexivity|]);
      (split; [reflexivity|]); vm_compute; reflexivity.
  - destruct window as [[?|] [?|]];
      eexists _, _, _; (split; [vm_compute; reflexivity|]);
      (split; [reflexivity|]); (split; [reflexivity|]);
      vm_compute; reflexivity.
Qed.

Lemma ResourceData_eq (a b : ResourceData) :
  rd_schema a = rd_schema b → rd_Id a = rd_Id b → rd_attrs a = rd_attrs b →
  a = b.
Proof. destruct a, b; simpl; by intros -> -> ->. Qed.

Lemma apply_writes_twice writes id d :
  apply_writes writes
    (ResourceData_SetId id (apply_writes writes (ResourceData_SetId id d)))
  = apply_writes writes (ResourceData_SetId id d).
Proof.
  apply ResourceData_eq.
  - rewrite rd_schema_apply_writes. cbn [rd_schema ResourceData_SetId].
    by rewrite !rd_schema_apply_writes.
  - by rewrite !rd_Id_apply_writes.
  - apply map_eq. intros key.
    rewrite lookup_apply_writes, lookup_SetId, lookup_apply_writes.
    rewrite lookup_SetId.
    rewrite rd_schema_SetId, rd_schema_apply_writes.
    destruct (written writes key) as [a|];
      destruct (schema_of (rd_schema (ResourceData_SetId id d)) key);
      by destruct (decide ("id" = key)).
Qed.

(** After a successful read [d.Get("id")] yields the fetched ID. *)
Lemma request_of_after_read ds intf id d :
  rd_schema d = Resource_Schema (DataSource_Resource ds) →
  request_of (apply_writes (metadata_writes intf) (ResourceData_SetId id d))
  = Build_GetSecretMetadataOptions (Some id).
Proof.
  intros Hsch. unfold request_of, requested_id, ResourceData_Get.
  rewrite rd_schema_apply_writes, rd_schema_SetId, Hsch.
  assert (∃ s, schema_of (Resource_Schema (DataSource_Resource ds)) "id"
               = Some s ∧ Type_ s = TypeString) as (s & -> & Hs)
    by (destruct ds; eexists; split; vm_compute; reflexivity).
  rewrite apply_writes_other
    by (apply untouched_not_written; repeat constructor).
  rewrite lookup_SetId, decide_True by done.
  unfold conforms. by rewrite Hs.
Qed.

(** X3.  Reading again changes nothing: after a successful read the
    attribute [id] holds the fetched ID, so that a second read of the
    resulting resource data asks for that ID; when the service answers
    this request as it did the first, the second read ends in the same
    resource data, without diagnostics. *)
Theorem Read_again_changes_nothing ds meta client d intf response id d' :
  ClientSession_SecretsManagerV2 meta = inr client →
  rd_schema d = Resource_Schema (DataSource_Resource ds) →
  GetSecretMetadata (getClientWithInstanceEndpoint client d) (request_of d)
  = (intf, response, None) →
  expected_type ds intf = true →
  metadata_ID intf = Some id →
  (∀ model, metadata_Rotation intf = Some model → recognized model = true) →
  run_d (invoke (Read getClientWithInstanceEndpoint ds) d meta).2 = d' →
  GetSecretMetadata (getClientWithInstanceEndpoint client d') (request_of d')
  = (intf, response, None) →
  request_of d' = Build_GetSecretMetadataOptions (Some id)
  ∧ invoke (Read getClientWithInstanceEndpoint ds) d' meta
    = (Return [], Build_Run d' [request_of d']).
Proof.
  intros Hsess Hsch Hfetch Htype HID Hrec Hfirst Hfetch'.
  rewrite (Read_mapped _ _ _ _ _ _ _ _ Hsess Hsch Hfetch Htype HID Hrec)
    in Hfirst.
  cbn [snd run_d] in Hfirst. subst d'.
  split; [by apply (request_of_after_read ds)|].
  set (d' := apply_writes (metadata_writes intf) (ResourceData_SetId id d))
    in *.
  assert (rd_schema d' = Resource_Schema (DataSource_Resource ds)) as Hsch'.
  { subst d'. by rewrite rd_schema_apply_writes. }
  rewrite (Read_mapped _ _ _ _ _ _ _ _ Hsess Hsch' Hfetch' Htype HID Hrec).
  subst d'. by rewrite apply_writes_twice.
Qed.

Lemma rotation_list_agree o :
  rotation_list UsernamePassword o = rotation_list PrivateCertificate o.
Proof. by destruct o as [[]|]. Qed.

Lemma shared_writes (m : PrivateCertificateMetadata.t) w :
  w ∈ UsernamePassword_writes (UsernamePassword_view m) →
  w ∈ PrivateCertificate_writes m.
Proof.
  unfold UsernamePassword_writes, UsernamePassword_writes_before_rotation,
    UsernamePassword_writes_after_rotation, PrivateCertificate_writes,
    PrivateCertificate_writes_before_rotation,
    PrivateCertificate_writes_after_rotation.
  rewrite rotation_list_agree. cbn [UsernamePassword_view
    UsernamePasswordSecretMetadata.CreatedBy
    UsernamePasswordSecretMetadata.CreatedAt
    UsernamePasswordSecretMetadata.Crn
    UsernamePasswordSecretMetadata.CustomMetadata
    UsernamePasswordSecretMetadata.Description
    UsernamePasswordSecretMetadata.Downloaded
    UsernamePasswordSecretMetadata.LocksTotal
    UsernamePasswordSecretMetadata.Name
    UsernamePasswordSecretMetadata.SecretGroupID
    UsernamePasswordSecretMetadata.SecretType
    UsernamePasswordSecretMetadata.State
    UsernamePasswordSecretMetadata.StateDescription
    UsernamePasswordSecretMetadata.UpdatedAt
    UsernamePasswordSecretMetadata.VersionsTotal
    UsernamePasswordSecretMetadata.Rotation
    UsernamePasswordSecretMetadata.ExpirationDate
    UsernamePasswordSecretMetadata.NextRotationDate].
  rewrite !elem_of_app, !elem_of_cons, !elem_of_nil.
  intros Hw.
  repeat match type of Hw with _ ∨ _ => destruct Hw as [Hw|Hw] end;
    try done; try (subst w; tauto).
  all: tauto.
Qed.

(** Schemas of the same type, with nested resources of the same zero
    record, store every value alike. *)
Lemma stored_same_shape s1 s2 a :
  Type_ s1 = Type_ s2 →
  match Elem s1, Elem s2 with
  | ElemResource fields1, ElemResource fields2 =>
      zero_record fields1 = zero_record fields2
  | ElemResource _, _ | _, ElemResource _ => False
  | _, _ => True
  end →
  stored s1 a = stored s2 a.
Proof.
  unfold stored, zero_value. intros Htype Helem.
  destruct a as [[]|]; destruct (Elem s1), (Elem s2);
    rewrite ?Htype, ?Helem; done.
Qed.

(** Every attribute the username/password schema declares is declared by
    the private-certificate schema with the same type and, where it nests
    a record, the same fields. *)
Lemma shared_schemas key s2 :
  schema_of (Resource_Schema DataSourceIbmSmUsernamePasswordSecretMetadata)
    key = Some s2 →
  ∃ s1,
    schema_of (Resource_Schema DataSourceIbmSmPrivateCertificateMetadata) key
    = Some s1
    ∧ ∀ a, stored s1 a = stored s2 a.
Proof.
  intros Hs. unfold schema_of in Hs.
  pose (ds := UsernamePassword).
  change DataSourceIbmSmUsernamePasswordSecretMetadata
    with (DataSource_Resource ds) in Hs.
  subst ds. schema_entries Hs.
  all: eexists; split; [vm_compute; reflexivity|];
       intros a; apply stored_same_shape;
       [reflexivity|vm_compute; first [exact I|reflexivity]].
Qed.

(** X8.  The two read functions store the attributes they share in the same
    way: when a certificate and the username/password secret with the same
    shared fields are both read, every attribute the username/password
    read writes holds the same content in both results. *)
Theorem reads_agree_on_shared_attributes
    meta1 client1 d1 response1 meta2 client2 d2 response2
    (m : PrivateCertificateMetadata.t) id key :
  ClientSession_SecretsManagerV2 meta1 = inr client1 →
  rd_schema d1 = Resource_Schema DataSourceIbmSmPrivateCertificateMetadata →
  GetSecretMetadata (getClientWithInstanceEndpoint client1 d1) (request_of d1)
  = (PrivateCertificateMetadataPtr m, response1, None) →
  ClientSession_SecretsManagerV2 meta2 = inr client2 →
  rd_schema d2
  = Resource_Schema DataSourceIbmSmUsernamePasswordSecretMetadata →
  GetSecretMetadata (getClientWithInstanceEndpoint client2 d2) (request_of d2)
  = (UsernamePasswordSecretMetadataPtr (UsernamePassword_view m),
     response2, None) →
  PrivateCertificateMetadata.ID m = Some id →
  (∀ model, PrivateCertificateMetadata.Rotation m = Some model →
            recognized model = true) →
  key ∈ (UsernamePassword_writes (UsernamePassword_view m)).*1 →
  rd_attrs (run_d (invoke (Read getClientWithInstanceEndpoint
                             PrivateCertificate) d1 meta1).2) !! key
  = rd_attrs (run_d (invoke (Read getClientWithInstanceEndpoint
                               UsernamePassword) d2 meta2).2) !! key.
Proof.
  intros Hsess1 Hsch1 Hfetch1 Hsess2 Hsch2 Hfetch2 HID Hrec Hkey.
  unfold Read.
  rewrite (PrivateCertificate_read_run _ _ _ _ _ _ _
             Hsess1 Hsch1 Hfetch1 HID Hrec).
  rewrite (UsernamePassword_read_run _ _ _ _ _ _ id
             Hsess2 Hsch2 Hfetch2 HID Hrec).
  cbn [snd run_d].
  apply list_elem_of_fmap in Hkey as ([key' a] & -> & Hw). simpl.
  assert (is_Some (schema_of
                     (Resource_Schema
                        DataSourceIbmSmUsernamePasswordSecretMetadata) key'))
    as [s2 Hs2].
  { pose proof (metadata_writes_declared UsernamePassword
                  (UsernamePasswordSecretMetadataPtr (UsernamePassword_view m))
                  eq_refl) as Hall.
    rewrite Forall_forall in Hall. apply Hall.
    apply list_elem_of_fmap. by exists (key', a). }
  destruct (shared_schemas key' s2 Hs2) as (s1 & Hs1 & Hsame).
  transitivity (Some (stored s2 a)); [rewrite <- Hsame|symmetry].
  - apply (lookup_written_attr (PrivateCertificateMetadataPtr m) _ key' a s1).
    + exact (shared_writes m _ Hw).
    + by rewrite rd_schema_SetId, Hsch1.
  - apply (lookup_written_attr
             (UsernamePasswordSecretMetadataPtr (UsernamePassword_view m))
             _ key' a s2).
    + exact Hw.
    + by rewrite rd_schema_SetId, Hsch2.
Qed.

(** X9.  A read never writes [labels] or [alt_names]: however the
    invocation ends (without diagnostics, with an error, or with a panic),
    these two attributes hold what they held before. *)
Theorem Read_never_writes_labels ds meta d key :
  rd_schema d = Resource_Schema (DataSource_Resource ds) →
  key ∈ ["labels"; "alt_names"] →
  rd_attrs (run_d (invoke (Read getClientWithInstanceEndpoint ds) d meta).2)
    !! key
  = rd_attrs d !! key.
Proof.
  intros Hsch Hkey.
  assert (Hid : "id" ≠ key).
  { intros <-. revert Hkey. rewrite !elem_of_cons, elem_of_nil.
    by intros [|[|]]. }
  assert (Hkey' : key ∈ ["id"; "labels"; "alt_names"])
    by (rewrite elem_of_cons; by right).
  destruct (ClientSession_SecretsManagerV2 meta) as [err|client] eqn:Hsess.
  { by rewrite (Read_session_failed _ _ _ _ _ Hsess). }
  destruct (GetSecretMetadata (getClientWithInstanceEndpoint client d)
              (request_of d)) as [[intf response] [err|]] eqn:Hfetch.
  { by rewrite (Read_fetch_failed _ _ _ _ _ _ _ _ Hsess Hsch Hfetch). }
  destruct (expected_type ds intf) eqn:Htype.
  2:{ by destruct (Read_type_mismatch _ _ _ _ _ _ _ Hsess Hsch Hfetch Htype)
        as [reason ->]. }
  destruct (metadata_ID intf) as [id|] eqn:HID.
  2:{ by destruct (Read_nil_ID _ _ _ _ _ _ _ Hsess Hsch Hfetch Htype HID)
        as [reason ->]. }
  destruct (untouched_not_written intf key Hkey') as [Hall Hbefore].
  destruct (metadata_Rotation intf) as [model|] eqn:Hrot;
    [destruct (recognized model) eqn:Hrec|].
  - assert (Hknown : ∀ model', Some model = Some model' →
                               recognized model' = true)
      by (by intros ? [= <-]).
    rewrite <- Hrot in Hknown.
    rewrite (Read_mapped _ _ _ _ _ _ _ _
               Hsess Hsch Hfetch Htype HID Hknown).
    cbn [snd run_d]. rewrite apply_writes_other by done.
    by rewrite lookup_SetId, decide_False.
  - rewrite (Read_unrecognized _ _ _ _ _ _ _ _ _
               Hsess Hsch Hfetch Htype HID Hrot Hrec).
    cbn [snd run_d]. rewrite apply_writes_other by done.
    by rewrite lookup_SetId, decide_False.
  - assert (Hknown : ∀ model', metadata_Rotation intf = Some model' →
                               recognized model' = true)
      by (rewrite Hrot; by intros ? [=]).
    rewrite (Read_mapped _ _ _ _ _ _ _ _
               Hsess Hsch Hfetch Htype HID Hknown).
    cbn [snd run_d]. rewrite apply_writes_other by done.
    by rewrite lookup_SetId, decide_False.
Qed.

End Stops.

(** X7.  The copy loop over the custom metadata does not depend on the
    order in which the entries of the map are visited: inserting them into
    an empty map in any order gives the map itself, and so does the copy. *)
Theorem range_copy_any_order {V : Type} (m : gmap string V)
    (entries : list (string * V)) :
  entries ≡ₚ map_to_list m →
  foldr (λ kv convertedMap, <[kv.1 := kv.2]> convertedMap) ∅ entries = m
  ∧ range_copy m = m.
Proof.
  intros Hperm. split; [|apply range_copy_id].
  change (list_to_map entries = m).
  transitivity (list_to_map (map_to_list m) : gmap string V);
    [|apply list_to_map_to_list].
  apply list_to_map_proper; [|done].
  rewrite Hperm. apply NoDup_fst_map_to_list.
Qed.

(** ** The further properties at the examples *)

(** X1 at the certificate read run on resource data that carry the schema
    of the other data source. *)
Lemma Read_stops_at_first_rejected_write_witness :
  stops_at (rd_schema (example_d UsernamePassword))
    (metadata_writes (collaborators := example_collaborators)
       (PrivateCertificateMetadataPtr example_rotating))
    (ResourceData_SetId "secret-123" (example_d UsernamePassword))
    [Build_GetSecretMetadataOptions (Some "secret-123")]
    (invoke (Read (collaborators := example_collaborators)
               example_getClientWithInstanceEndpoint PrivateCertificate)
       (example_d UsernamePassword)
       (example_session (example_answer example_rotating))).
Proof.
  apply (Read_stops_at_first_rejected_write
           (collaborators := example_collaborators)
           example_getClientWithInstanceEndpoint PrivateCertificate
           (example_session (example_answer example_rotating))
           (example_client (example_answer example_rotating))
           (example_d UsernamePassword)
           (PrivateCertificateMetadataPtr example_rotating) None
           "secret-123" "secret-123");
    try (vm_compute; reflexivity).
  intros model Hmodel. vm_compute in Hmodel. injection Hmodel as <-.
  reflexivity.
Defined.

(** X2 at the example certificate whose rotation policy has an unknown
    shape. *)
Lemma unknown_policy_keeps_earlier_writes_witness :
  ∃ d',
    example_read example_unknown_policy
    = (Return (diag_FromErr Unrecognized_subtype),
       Build_Run d' [request_of (example_d PrivateCertificate)])
    ∧ rd_Id d' = "secret-123"
    ∧ rd_attrs d' !! "id" = Some (AScalar (SString "secret-123"))
    ∧ Forall (λ w, ∃ s,
                schema_of
                  (Resource_Schema DataSourceIbmSmPrivateCertificateMetadata)
                  w.1 = Some s
                ∧ rd_attrs d' !! w.1 = Some (stored s w.2))
        (metadata_writes_before_rotation
           (collaborators := example_collaborators)
           (PrivateCertificateMetadataPtr example_unknown_policy))
    ∧ (∀ key,
         key ∈ (metadata_writes (collaborators := example_collaborators)
                  (PrivateCertificateMetadataPtr example_unknown_policy)).*1 →
         key ∉ (metadata_writes_before_rotation
                  (collaborators := example_collaborators)
                  (PrivateCertificateMetadataPtr example_unknown_policy)).*1 →
         rd_attrs d' !! key = rd_attrs (example_d PrivateCertificate) !! key)
    ∧ "rotation" ∈ (metadata_writes (collaborators := example_collaborators)
                      (PrivateCertificateMetadataPtr
                         example_unknown_policy)).*1
    ∧ ("rotation" ∉ (metadata_writes_before_rotation
                       (collaborators := example_collaborators)
                       (PrivateCertificateMetadataPtr
                          example_unknown_policy)).*1).
Proof.
  apply (unknown_policy_keeps_earlier_writes
           (collaborators := example_collaborators)
           example_getClientWithInstanceEndpoint PrivateCertificate
           (example_session (example_answer example_unknown_policy))
           (example_client (example_answer example_unknown_policy))
           (example_d PrivateCertificate)
           (PrivateCertificateMetadataPtr example_unknown_policy) None
           "secret-123"
           (OtherRotationPolicy "*secretsmanagerv2.FutureRotationPolicy"));
    vm_compute; reflexivity.
Defined.

(** X3 at a fetched certificate whose ID is not the configured one: the
    second read asks for the fetched ID. *)
Lemma Read_again_changes_nothing_witness :
  request_of (run_d (example_read example_renamed).2)
  = Build_GetSecretMetadataOptions (Some "secret-456")
  ∧ invoke (Read (collaborators := example_collaborators)
              example_getClientWithInstanceEndpoint PrivateCertificate)
      (run_d (example_read example_renamed).2)
      (example_session (example_answer example_renamed))
    = (Return [],
       Build_Run (run_d (example_read example_renamed).2)
         [request_of (run_d (example_read example_renamed).2)]).
Proof.
  apply (Read_again_changes_nothing
           (collaborators := example_collaborators)
           example_getClientWithInstanceEndpoint PrivateCertificate
           (example_session (example_answer example_renamed))
           (example_client (example_answer example_renamed))
           (example_d PrivateCertificate)
           (PrivateCertificateMetadataPtr example_renamed) None
           "secret-456" (run_d (example_read example_renamed).2));
    try (vm_compute; reflexivity).
  intros model Hmodel. vm_compute in Hmodel. injection Hmodel as <-.
  reflexivity.
Defined.

(** X4 at the example certificate with a rotation policy of a known
    shape. *)
Lemma Read_outcome_witness :
  (example_read example_rotating).1 = Return [].
Proof.
  exact (Read_outcome (collaborators := example_collaborators)
           example_getClientWithInstanceEndpoint PrivateCertificate
           (example_session (example_answer example_rotating))
           (example_d PrivateCertificate) eq_refl).
Defined.

(** X5 at the example certificate with a rotation policy and a validity
    window. *)
Lemma nested_lists_hold_at_most_one_witness :
  ∃ d' rotation,
    example_read example_rotating
    = (Return [], Build_Run d' [request_of (example_d PrivateCertificate)])
    ∧ rd_attrs d' !! "rotation" = Some (AList rotation)
    ∧ length rotation = 1%nat
    ∧ ∃ validity,
        rd_attrs d' !! "validity" = Some (AList validity)
        ∧ length validity = 1%nat.
Proof.
  apply (nested_lists_hold_at_most_one
           (collaborators := example_collaborators)
           example_getClientWithInstanceEndpoint PrivateCertificate
           (example_session (example_answer example_rotating))
           (example_client (example_answer example_rotating))
           (example_d PrivateCertificate)
           (PrivateCertificateMetadataPtr example_rotating) None
           "secret-123");
    try (vm_compute; reflexivity).
  intros model Hmodel. vm_compute in Hmodel. injection Hmodel as <-.
  reflexivity.
Defined.

(** X7 at a map of two entries, visited from the greater key down. *)
Lemma range_copy_any_order_witness :
  foldr (λ kv convertedMap, <[kv.1 := kv.2]> convertedMap) ∅
    [("team", "payments"); ("env", "prod")]
  = example_custom_metadata
  ∧ range_copy example_custom_metadata = example_custom_metadata.
Proof.
  apply (range_copy_any_order example_custom_metadata
           [("team", "payments"); ("env", "prod")]).
  apply (bool_decide_unpack _). vm_compute. reflexivity.
Defined.

(** X8 at the example certificate and the username/password secret with
    the same shared fields, for the attribute [rotation]. *)
Lemma reads_agree_on_shared_attributes_witness :
  rd_attrs (run_d (example_read example_rotating).2) !! "rotation"
  = rd_attrs
      (run_d (invoke (Read (collaborators := example_collaborators)
                        example_getClientWithInstanceEndpoint
                        UsernamePassword)
                (example_d UsernamePassword)
                (example_session example_password_answer)).2)
    !! "rotation".
Proof.
  apply (reads_agree_on_shared_attributes
           (collaborators := example_collaborators)
           example_getClientWithInstanceEndpoint
           (example_session (example_answer example_rotating))
           (example_client (example_answer example_rotating))
           (example_d PrivateCertificate) None
           (example_session example_password_answer)
           (example_client example_password_answer)
           (example_d UsernamePassword) None
           example_rotating "secret-123" "rotation");
    try (vm_compute; reflexivity).
  - intros model Hmodel. vm_compute in Hmodel. injection Hmodel as <-.
    reflexivity.
  - apply (bool_decide_unpack _). vm_compute. reflexivity.
Defined.

(** X9 at the example certificate with labels: [labels] is as it was. *)
Lemma Read_never_writes_labels_witness :
  rd_attrs (run_d (example_read example_labelled).2) !! "labels"
  = rd_attrs (example_d PrivateCertificate) !! "labels".
Proof.
  apply (Read_never_writes_labels (collaborators := example_collaborators)
           example_getClientWithInstanceEndpoint PrivateCertificate
           (example_session (example_answer example_labelled))
           (example_d PrivateCertificate) "labels").
  - reflexivity.
  - apply (bool_decide_unpack _). vm_compute. reflexivity.
Defined.

(** X10 at the example rotation policy and validity window. *)
Lemma mapped_records_conform_witness :
  (∃ s fields,
     schema_of (Resource_Schema DataSourceIbmSmPrivateCertificateMetadata)
       "rotation" = Some s
     ∧ Elem s = ElemResource fields
     ∧ object_conforms fields example_policy_map = true)
  ∧ (∃ s fields windowMap,
       schema_of (Resource_Schema DataSourceIbmSmPrivateCertificateMetadata)
         "validity" = Some s
       ∧ Elem s = ElemResource fields
       ∧ dataSourceIbmSmPrivateCertificateMetadataCertificateValidityToMap
           (collaborators := example_collaborators) example_window
         = (Some windowMap, None)
       ∧ object_conforms fields windowMap = true).
Proof.
  apply (mapped_records_conform (collaborators := example_collaborators)
           PrivateCertificate example_policy example_window
           example_policy_map).
  vm_compute. reflexivity.
Defined.
